(** * VerifiQuant: the browser front end and the solve boundary

    A shallow embedding of [src/static/app.js] (the current front end), of its
    earlier revision (the text-only [renderResult]) and of the solve pipeline
    that answers [POST /api/solve].

    - Module [Js]: the fragment of JavaScript the scripts run on: JSON data,
      the abstract operations [ToString], [ToNumber], [ToBoolean], property
      reads, [Array.prototype.join], and completions (normal or thrown).
    - Module [Page]: the five DOM nodes the scripts hold and the functions
      [updateTopicOptions], [setLoading], [renderResult] (both revisions) and
      the submit handler.
    - Module [Core]: the solve pipeline, which is not part of the scripts and
      is modelled from its specification. *)

From Stdlib Require Import String Ascii ZArith QArith Qminmax DecimalString.
From stdpp Require Import base option list strings gmap.

Set Warnings "-register-all".

Local Open Scope string_scope.

(* ===================================================================== *)
(** * JavaScript data and abstract operations *)
(* ===================================================================== *)
Module Js.

(** The double quote character, for the markup literals of the scripts. *)
Definition dq : string := String "034"%char EmptyString.

(** The line feed character. *)
Definition nl : string := String "010"%char EmptyString.

(** Decimal numeral of a natural number: what [`${idx + 1}`] prints for an
    array index (an integer below 2^32, printed without exponent). *)
Definition dec (n : nat) : string := NilEmpty.string_of_uint (Nat.to_uint n).

(** ** Numbers

    Numbers are IEEE doubles formatted by the engine.  The scripts only move
    them around and print them, so the number type and its built-in
    operations are an interface. *)
Class Numeric := {
  num : Type;
  NaN : num;
  (** The double nearest to an integer (exact below 2^53). *)
  num_of_Z : Z -> num;
  (** [ToBoolean] on a number: false exactly for [+0], [-0] and [NaN]. *)
  num_is_falsy : num -> bool;
  (** [Number::toString(x)] in radix 10. *)
  Number_toString : num -> string;
  (** [Number.prototype.toFixed.call(x, 4)]. *)
  toFixed4 : num -> string;
  (** [StringToNumber]: the numeric value of a string, [NaN] when it has none. *)
  StringToNumber : string -> num;
}.

(** ** Completions: a computation returns normally or throws.  Only the
    [message] of a thrown error is ever read by the scripts. *)
Inductive completion (A : Type) : Type :=
| Normal (a : A)
| Throw (message : string).
Arguments Normal {A} a.
Arguments Throw {A} message.

Definition cbind {A B} (c : completion A) (k : A -> completion B) : completion B :=
  match c with
  | Normal a => k a
  | Throw m => Throw m
  end.

Declare Scope js_scope.
Delimit Scope js_scope with js.
Notation "x <- c ;; k" := (cbind c (fun x => k))
  (at level 100, c at next level, right associativity) : js_scope.

Definition is_normal {A} (c : completion A) : bool :=
  match c with Normal _ => true | Throw _ => false end.

(** Error texts are engine defined (these are V8's); no statement depends on
    their wording. *)
Definition msg_not_primitive : string := "Cannot convert object to primitive value".
Definition msg_read_nullish (k : string) : string :=
  "Cannot read properties of null or undefined (reading '" +:+ k +:+ "')".
Definition msg_not_function (what : string) : string := what +:+ " is not a function".

Section Values.
Context {NUM : Numeric}.

(** ** Values

    What [response.json()] can produce, plus [undefined] (the result of
    reading an absent property).  An object is the list of its own
    properties in creation order; keys are distinct. *)
Inductive value : Type :=
| VUndefined
| VNull
| VBool (b : bool)
| VNum (n : num)
| VStr (s : string)
| VArr (elems : list value)
| VObj (props : list (string * value)).

(** Own property lookup. *)
Fixpoint own (props : list (string * value)) (k : string) : option value :=
  match props with
  | [] => None
  | (k', v) :: rest => if bool_decide (k' = k) then Some v else own rest k
  end.

Definition has_own (props : list (string * value)) (k : string) : bool :=
  match own props k with Some _ => true | None => false end.

(** [v.k] for the property names the scripts read ([status], [steps],
    [card_id], ..., [variable], [formula], [value]): none of them is a member
    of a built-in prototype, so the read finds an own property of an object
    or nothing.  Reading a property of [null] or [undefined] throws. *)
Definition Get (v : value) (k : string) : completion value :=
  match v with
  | VUndefined | VNull => Throw (msg_read_nullish k)
  | VObj props => Normal (default VUndefined (own props k))
  | _ => Normal VUndefined
  end.

(** [ToBoolean]. *)
Definition ToBoolean (v : value) : bool :=
  match v with
  | VUndefined | VNull => false
  | VBool b => b
  | VNum n => negb (num_is_falsy n)
  | VStr s => negb (bool_decide (s = EmptyString))
  | VArr _ | VObj _ => true
  end.

(** [a || b]. *)
Definition or_else (a b : value) : value := if ToBoolean a then a else b.

(** [sep]-separated concatenation, as [Array.prototype.join] builds it. *)
Fixpoint intercalate (sep : string) (parts : list string) : string :=
  match parts with
  | [] => EmptyString
  | [p] => p
  | p :: rest => p +:+ sep +:+ intercalate sep rest
  end.

(** Run a throwing function over a list, left to right. *)
Fixpoint cmap {A B} (f : A -> completion B) (l : list A) : completion (list B) :=
  match l with
  | [] => Normal []
  | a :: rest =>
      (b <- f a ;; bs <- cmap f rest ;; Normal (b :: bs))%js
  end.

(** [ToString].  A data object has no callable [toString] of its own: it
    prints as [[object Object]] through [Object.prototype.toString], unless
    an own property named [toString] shadows that method, in which case no
    primitive can be obtained and [ToPrimitive] throws.  An array prints as
    its [join(",")], where [null] and [undefined] elements print as nothing. *)
Fixpoint ToString (v : value) : completion string :=
  match v with
  | VUndefined => Normal "undefined"
  | VNull => Normal "null"
  | VBool true => Normal "true"
  | VBool false => Normal "false"
  | VNum n => Normal (Number_toString n)
  | VStr s => Normal s
  | VArr elems =>
      (parts <- (fix go (l : list value) : completion (list string) :=
                   match l with
                   | [] => Normal []
                   | e :: rest =>
                       p <- match e with
                            | VUndefined | VNull => Normal EmptyString
                            | _ => ToString e
                            end ;;
                       ps <- go rest ;;
                       Normal (p :: ps)
                   end) elems ;;
       Normal (intercalate "," parts))%js
  | VObj props =>
      if has_own props "toString" then Throw msg_not_primitive
      else Normal "[object Object]"
  end.

(** One element of a [join]. *)
Definition join_part (e : value) : completion string :=
  match e with
  | VUndefined | VNull => Normal EmptyString
  | _ => ToString e
  end.

(** [Array.prototype.join.call(elems, sep)]. *)
Definition Array_join (elems : list value) (sep : string) : completion string :=
  (parts <- cmap join_part elems ;; Normal (intercalate sep parts))%js.

(** [ToNumber], that is [Number(v)]: objects and arrays go through
    [ToPrimitive] with hint number, which ends in their [toString]. *)
Definition ToNumber (v : value) : completion num :=
  match v with
  | VUndefined => Normal NaN
  | VNull => Normal (num_of_Z 0)
  | VBool true => Normal (num_of_Z 1)
  | VBool false => Normal (num_of_Z 0)
  | VNum n => Normal n
  | VStr s => Normal (StringToNumber s)
  | VArr _ | VObj _ => (s <- ToString v ;; Normal (StringToNumber s))%js
  end.

(** [v] is, or holds as an array element at any depth, an object with an
    own property named [toString]. *)
Fixpoint shadows_toString (v : value) : bool :=
  match v with
  | VObj props => has_own props "toString"
  | VArr elems =>
      (fix go (l : list value) : bool :=
         match l with
         | [] => false
         | e :: rest => shadows_toString e || go rest
         end) elems
  | _ => false
  end.

(** [v.k], [undefined] where the read would throw. *)
Definition get_or_undefined (v : value) (k : string) : value :=
  match Get v k with
  | Normal x => x
  | Throw _ => VUndefined
  end.

Definition is_object (v : value) : bool :=
  match v with VObj _ => true | _ => false end.

(** [v === "literal"]. *)
Definition strict_eq_str (v : value) (lit : string) : bool :=
  match v with
  | VStr s => bool_decide (s = lit)
  | _ => false
  end.

(** [JSON.stringify(v, null, indent)] on a value other than [undefined]: the
    engine's serializer, an interface like the number formatting. *)
Class Json := {
  JSON_stringify : value -> nat -> string;
}.

End Values.
Arguments value {_}.
Arguments Json {_}.
End Js.

(* ===================================================================== *)
(** * The page: DOM state and the functions of the script *)
(* ===================================================================== *)
Module Page.
Import Js.
Local Open Scope js_scope.

(** An [<option>] element: its [value] and its text. *)
Record option_el := { opt_value : string; opt_text : string }.

(** A [<select>]: its option children, in document order. *)
Definition select_el := list option_el.

(** What was last assigned to an element: markup through [innerHTML], or
    plain text through [textContent]. *)
Inductive content :=
| Markup (html : string)
| Text (text : string).

(** The nodes the script holds ([form], [domainSelect], [topicSelect],
    [loader], [resultEl]) and the question field, reduced to the attributes
    the script reads or writes. *)
Record page := {
  question_value : string;       (* document.getElementById("question").value *)
  domain_value : string;         (* domainSelect.value *)
  topic_value : string;          (* topicSelect.value *)
  topic_children : select_el;    (* children of topicSelect *)
  loader_classes : gset string;  (* loader.classList *)
  button_disabled : bool;        (* form.querySelector("button").disabled *)
  result_classes : gset string;  (* resultEl.classList *)
  result_content : content;      (* what resultEl shows *)
}.

Definition set_topic (sel : select_el) (v : string) (p : page) : page :=
  {| question_value := question_value p; domain_value := domain_value p;
     topic_value := v; topic_children := sel;
     loader_classes := loader_classes p; button_disabled := button_disabled p;
     result_classes := result_classes p; result_content := result_content p |}.

Definition set_loader (cls : gset string) (dis : bool) (p : page) : page :=
  {| question_value := question_value p; domain_value := domain_value p;
     topic_value := topic_value p; topic_children := topic_children p;
     loader_classes := cls; button_disabled := dis;
     result_classes := result_classes p; result_content := result_content p |}.

Definition set_result_classes (cls : gset string) (p : page) : page :=
  {| question_value := question_value p; domain_value := domain_value p;
     topic_value := topic_value p; topic_children := topic_children p;
     loader_classes := loader_classes p; button_disabled := button_disabled p;
     result_classes := cls; result_content := result_content p |}.

Definition set_result_content (c : content) (p : page) : page :=
  {| question_value := question_value p; domain_value := domain_value p;
     topic_value := topic_value p; topic_children := topic_children p;
     loader_classes := loader_classes p; button_disabled := button_disabled p;
     result_classes := result_classes p; result_content := c |}.

(** [classList.toggle(token, force)]: add when [force], remove otherwise. *)
Definition classList_toggle (cls : gset string) (token : string) (force : bool)
  : gset string :=
  if force then cls ∪ {[token]} else cls ∖ {[token]}.

(** An element is shown unless it carries the class [hidden]. *)
Definition shown (cls : gset string) : Prop := "hidden" ∉ cls.

(** ** [updateTopicOptions] *)

(** The names every object inherits from [Object.prototype]: reading one of
    them on the mapping yields a function or an object, not a topic list. *)
Definition Object_prototype_keys : list string :=
  [ "constructor"; "__proto__"; "hasOwnProperty"; "isPrototypeOf";
    "propertyIsEnumerable"; "toLocaleString"; "toString"; "valueOf";
    "__defineGetter__"; "__defineSetter__"; "__lookupGetter__";
    "__lookupSetter__" ].

(** Result of [topicOptions[domain]]. *)
Inductive member :=
| Own (topics : list string)   (* an entry of the mapping *)
| Inherited                    (* a member of Object.prototype *)
| Absent.                      (* undefined *)

(** The one child that the markup assigned on line 12 creates: an option
    with the empty value and the text 全部主題. *)
Definition default_option : option_el :=
  {| opt_value := EmptyString; opt_text := "全部主題" |}.

(** [createElement("option")] with [value] and [textContent] set to [topic]. *)
Definition topic_option (topic : string) : option_el :=
  {| opt_value := topic; opt_text := topic |}.

(** [topicSelect.appendChild(option)]. *)
Definition appendChild (sel : select_el) (o : option_el) : select_el := (sel ++ [o])%list.

(** A request as [fetch] receives it. *)
Record request := {
  url : string;
  method : string;
  headers : list (string * string);
  body : string;
}.

(** How an awaited promise ends: it never settles, rejects with an error,
    or fulfils. *)
Inductive settled (A : Type) : Type :=
| Pending
| Rejected (message : string)
| Fulfilled (a : A).
Arguments Pending {A}.
Arguments Rejected {A} message.
Arguments Fulfilled {A} a.

Section Script.
Context {NUM : Numeric} {JSON : Json}.

(** [window.TOPIC_OPTIONS]: absent, or a mapping from domain to topic list. *)
Variable window_TOPIC_OPTIONS : option (gmap string (list string)).

(** [const topicOptions = window.TOPIC_OPTIONS || {}] *)
Definition topicOptions : gmap string (list string) :=
  default ∅ window_TOPIC_OPTIONS.

Definition topicOptions_get (domain : string) : member :=
  match topicOptions !! domain with
  | Some topics => Own topics
  | None => if bool_decide (domain ∈ Object_prototype_keys) then Inherited else Absent
  end.

(** Lines 9-19.  The select is emptied down to the default option (which the
    browser then selects) before the topics are walked, so that state stays
    when [forEach] turns out not to be callable. *)
Definition updateTopicOptions (p : page) : page * completion unit :=
  let domain := domain_value p in
  let topics : option (list string) :=
    if bool_decide (domain = EmptyString) then Some []
    else match topicOptions_get domain with
         | Own topics => Some topics
         | Inherited => None
         | Absent => Some []
         end in
  let p1 := set_topic [default_option] EmptyString p in
  match topics with
  | Some topics =>
      (set_topic (foldl (fun sel topic => appendChild sel (topic_option topic))
                        (topic_children p1) topics)
                 (topic_value p1) p1,
       Normal tt)
  | None => (p1, Throw (msg_not_function "topics.forEach"))
  end.

(** ** [setLoading], lines 25-28 *)
Definition setLoading (isLoading : bool) (p : page) : page :=
  set_loader (classList_toggle (loader_classes p) "hidden" (negb isLoading))
             isLoading p.

(** ** The response format of the solve boundary

    [{status:"success", card_id, selection_reason, inputs, steps:
    [{variable, formula, value}], output_var, output_value, is_fallback}],
    [{status:"refused", reason, missing_inputs?}]: the fields a response
    of that format carries, whatever else it carries besides. *)

(** [data.k] is [v]. *)
Definition field (data : value) (k : string) (v : value) : Prop :=
  Get data k = Normal v.






(** ** Method calls on data.  A value parsed from JSON has no callable own
    property, so [v.map], [v.join] and [v.toFixed] are callable only when
    [v] is an array, resp. a number, and inherits them. *)

(** [steps.map((step, idx) => f(idx, step))]: callbacks run in index
    order, the first one to throw ends the call. *)
Definition call_map {B} (steps : value) (f : nat -> value -> completion B)
  : completion (list B) :=
  match steps with
  | VArr elems => cmap id (imap f elems)
  | VUndefined | VNull => Throw (msg_read_nullish "map")
  | _ => Throw (msg_not_function "data.steps.map")
  end.

(** [v.join(sep)] *)
Definition call_join (v : value) (sep : string) : completion string :=
  match v with
  | VArr elems => Array_join elems sep
  | VUndefined | VNull => Throw (msg_read_nullish "join")
  | _ => Throw (msg_not_function "data.missing_inputs.join")
  end.

(** [v.toFixed(4)] *)
Definition call_toFixed4 (v : value) : completion string :=
  match v with
  | VNum n => Normal (toFixed4 n)
  | VUndefined | VNull => Throw (msg_read_nullish "toFixed")
  | _ => Throw (msg_not_function "step.value.toFixed")
  end.

(** [ToBoolean(v?.length)]: the length of an array or of a string, an own
    property [length] of an object, [undefined] for anything else. *)
Definition optional_length_truthy (v : value) : bool :=
  match v with
  | VArr elems => negb (Nat.eqb (length elems) 0)
  | VStr s => negb (bool_decide (s = EmptyString))
  | VObj props => ToBoolean (default VUndefined (own props "length"))
  | _ => false
  end.

(** [`${JSON.stringify(v, null, indent)}`]: [JSON.stringify] returns
    [undefined] for [undefined], which the template prints as such. *)
Definition JSON_stringify_text (v : value) (indent : nat) : string :=
  match v with
  | VUndefined => "undefined"
  | _ => JSON_stringify v indent
  end.

(** ** [renderResult], lines 30-68 of [src/static/app.js] *)

(** The callback of [data.steps.map], lines 35-38. *)
Definition stepItem (idx : nat) (step : value) : completion string :=
  variable <- Get step "variable" ;;
  variable <- ToString variable ;;
  formula <- Get step "formula" ;;
  formula <- ToString (or_else formula (VStr "公式")) ;;
  val <- Get step "value" ;;
  n <- ToNumber val ;;
  Normal ("<li><code>" +:+ dec (idx + 1) +:+ ". " +:+ variable +:+ " = "
            +:+ formula +:+ " = " +:+ toFixed4 n +:+ "</code></li>").

(** The template of lines 43-55, its eight holes filled. *)
Definition success_markup
  (modeClass calcMode card_id selection_reason inputs stepsList
   output_var output_value : string) : string :=
  nl +:+ "      <div class=" +:+ dq +:+ "meta-row" +:+ dq +:+ ">" +:+
  nl +:+ "        <span>狀態：<strong>成功</strong></span>" +:+
  nl +:+ "        <span>計算模式：<span class=" +:+ dq +:+ "badge " +:+ modeClass
     +:+ dq +:+ ">" +:+ calcMode +:+ "</span></span>" +:+
  nl +:+ "      </div>" +:+
  nl +:+ "      <p>使用卡片：<code>" +:+ card_id +:+ "</code></p>" +:+
  nl +:+ "      <p>LLM 選擇理由：" +:+ selection_reason +:+ "</p>" +:+
  nl +:+ "      <p>輸入值：</p>" +:+
  nl +:+ "      <pre>" +:+ inputs +:+ "</pre>" +:+
  nl +:+ "      <p>計算步驟：</p>" +:+
  nl +:+ "      <ol class=" +:+ dq +:+ "steps-list" +:+ dq +:+ ">" +:+ stepsList
     +:+ "</ol>" +:+
  nl +:+ "      <p class=" +:+ dq +:+ "result-output" +:+ dq +:+ ">" +:+ output_var
     +:+ " = <strong>" +:+ output_value +:+ "</strong></p>" +:+
  nl +:+ "    ".

(** The template of lines 60-64. *)
Definition refused_markup (reason missing : string) : string :=
  nl +:+ "      <p>狀態：<strong>拒絕</strong></p>" +:+
  nl +:+ "      <p>原因：" +:+ reason +:+ "</p>" +:+
  nl +:+ "      " +:+ missing +:+
  nl +:+ "    ".

(** Lines 57-59. *)
Definition missing_markup (missing_inputs : value) : completion string :=
  if optional_length_truthy missing_inputs then
    names <- call_join missing_inputs ", " ;;
    Normal ("<p>缺少欄位：" +:+ names +:+ "</p>")
  else Normal EmptyString.

Definition unknown_error : string := "系統發生未知錯誤".

(** What lines 32-67 assign to [resultEl]. *)
Definition rendered (data : value) : completion content :=
  status <- Get data "status" ;;
  if strict_eq_str status "success" then
    steps <- Get data "steps" ;;
    items <- call_map steps stepItem ;;
    let stepsList := intercalate EmptyString items in
    is_fallback <- Get data "is_fallback" ;;
    let calcMode := if ToBoolean is_fallback then "LLM fallback" else "SymPy" in
    let modeClass := if ToBoolean is_fallback then "badge-llm" else "badge-sympy" in
    card_id <- Get data "card_id" ;;
    card_id <- ToString card_id ;;
    selection_reason <- Get data "selection_reason" ;;
    selection_reason <- ToString selection_reason ;;
    inputs <- Get data "inputs" ;;
    let inputs := JSON_stringify_text inputs 2 in
    output_var <- Get data "output_var" ;;
    output_var <- ToString output_var ;;
    output_value <- Get data "output_value" ;;
    output_value <- ToString output_value ;;
    Normal (Markup (success_markup modeClass calcMode card_id selection_reason
                      inputs stepsList output_var output_value))
  else if strict_eq_str status "refused" then
    missing_inputs <- Get data "missing_inputs" ;;
    missing <- missing_markup missing_inputs ;;
    reason <- Get data "reason" ;;
    reason <- ToString reason ;;
    Normal (Markup (refused_markup reason missing))
  else
    message <- Get data "message" ;;
    text <- ToString (or_else message (VStr unknown_error)) ;;
    Normal (Text text).

(** A statement that may throw after having changed the page. *)
Definition assign_result (c : completion content) (p : page)
  : page * completion unit :=
  match c with
  | Normal c => (set_result_content c p, Normal tt)
  | Throw m => (p, Throw m)
  end.

Definition renderResult (data : value) (p : page) : page * completion unit :=
  let p := set_result_classes (result_classes p ∖ {["hidden"]}) p in
  assign_result (rendered data) p.

(** ** [renderResult] of the earlier revision (text only) *)

(** The callback of [data.steps.map] there. *)
Definition stepText (idx : nat) (step : value) : completion string :=
  variable <- Get step "variable" ;;
  variable <- ToString variable ;;
  formula <- Get step "formula" ;;
  formula <- ToString formula ;;
  val <- Get step "value" ;;
  fixed <- call_toFixed4 val ;;
  Normal (dec (idx + 1) +:+ ". " +:+ variable +:+ " = " +:+ formula +:+ " = "
            +:+ fixed).

Definition success_text
  (card_id selection_reason inputs stepsText output_var output_value : string)
  : string :=
  intercalate (nl +:+ nl)
    [ "狀態：成功";
      "使用卡片：" +:+ card_id;
      "理由：" +:+ selection_reason;
      "輸入值：" +:+ inputs;
      "步驟：" +:+ nl +:+ stepsText;
      "輸出：" +:+ output_var +:+ " = " +:+ output_value ].

(** [[...].filter(Boolean).join("\n")] on strings: the empty ones go. *)
Definition refused_text (reason missing : string) : string :=
  intercalate nl
    (filter (fun s : string => s ≠ EmptyString)
       [ "狀態：拒絕"; "原因：" +:+ reason; missing ]).

Definition missing_text (missing_inputs : value) : completion string :=
  if ToBoolean missing_inputs then
    names <- call_join missing_inputs ", " ;;
    Normal ("缺少欄位：" +:+ names)
  else Normal EmptyString.

Definition rendered_text (data : value) : completion content :=
  status <- Get data "status" ;;
  if strict_eq_str status "success" then
    steps <- Get data "steps" ;;
    lines <- call_map steps stepText ;;
    let stepsText := intercalate nl lines in
    card_id <- Get data "card_id" ;;
    card_id <- ToString card_id ;;
    selection_reason <- Get data "selection_reason" ;;
    selection_reason <- ToString selection_reason ;;
    inputs <- Get data "inputs" ;;
    let inputs := JSON_stringify_text inputs 2 in
    output_var <- Get data "output_var" ;;
    output_var <- ToString output_var ;;
    output_value <- Get data "output_value" ;;
    output_value <- ToString output_value ;;
    Normal (Text (success_text card_id selection_reason inputs stepsText
                    output_var output_value))
  else if strict_eq_str status "refused" then
    reason <- Get data "reason" ;;
    reason <- ToString reason ;;
    missing_inputs <- Get data "missing_inputs" ;;
    missing <- missing_text missing_inputs ;;
    Normal (Text (refused_text reason missing))
  else
    message <- Get data "message" ;;
    text <- ToString (or_else message (VStr unknown_error)) ;;
    Normal (Text text).

Definition renderResult_text (data : value) (p : page) : page * completion unit :=
  let p := set_result_classes (result_classes p ∖ {["hidden"]}) p in
  assign_result (rendered_text data) p.

(** ** The submit handler, lines 70-95 *)

(** A [Response], reduced to how [response.json()] settles. *)
Record response := { json : settled value }.

(** The world outside the page: how [fetch(request)] settles. *)
Definition network := request -> settled response.

(** One run of the handler: the requests it issued, the page as it stands
    when the handler first suspends (at [await fetch]), and the page when
    the handler has run to its end, if it does. *)
Record run := {
  sent : list request;
  suspended : page;
  finished : option page;
}.

(** Lines 76-80. *)
Definition payload (p : page) : value :=
  VObj [ ("question", VStr (question_value p));
         ("domain", or_else (VStr (domain_value p)) VNull);
         ("topic", or_else (VStr (topic_value p)) VNull) ].

(** Lines 81-87. *)
Definition solve_request (p : page) : request :=
  {| url := "/api/solve";
     method := "POST";
     headers := [ ("Content-Type", "application/json") ];
     body := JSON_stringify (payload p) 0 |}.

(** The [try] block from the first [await] on: [None] when an awaited
    promise never settles. *)
Definition try_block (net : network) (p : page) : option (page * completion unit) :=
  match net (solve_request p) with
  | Pending => None
  | Rejected m => Some (p, Throw m)
  | Fulfilled resp =>
      match json resp with
      | Pending => None
      | Rejected m => Some (p, Throw m)
      | Fulfilled data => Some (renderResult data p)
      end
  end.

(** [catch (error)], line 91. *)
Definition catch_block (message : string) (p : page) : page * completion unit :=
  renderResult (VObj [ ("status", VStr "error"); ("message", VStr message) ]) p.

Definition submit (net : network) (p : page) : run :=
  let p := set_result_classes (result_classes p ∪ {["hidden"]}) p in
  let p := set_result_content (Text EmptyString) p in
  let p := setLoading true p in
  {| sent := [ solve_request p ];
     suspended := p;
     finished :=
       match try_block net p with
       | None => None
       | Some (p', Normal _) => Some (setLoading false p')
       | Some (p', Throw m) => Some (setLoading false (fst (catch_block m p')))
       end |}.

(** ** Vocabulary of the statements *)

(** What [resultEl] is after a render that assigned [c]. *)
Definition showing (c : content) (p : page) : page :=
  set_result_content c (set_result_classes (result_classes p ∖ {["hidden"]}) p).









(** Nothing that [renderResult] prints for this step makes [ToPrimitive]
    throw. *)
Definition step_prints (step : value) : bool :=
  negb (shadows_toString (get_or_undefined step "variable")) &&
  negb (shadows_toString (get_or_undefined step "formula")) &&
  negb (shadows_toString (get_or_undefined step "value")).

(** The same for the fields printed around the step list. *)
Definition frame_prints (data : value) : bool :=
  negb (shadows_toString (get_or_undefined data "card_id")) &&
  negb (shadows_toString (get_or_undefined data "selection_reason")) &&
  negb (shadows_toString (get_or_undefined data "output_var")) &&
  negb (shadows_toString (get_or_undefined data "output_value")).





(** An awaited promise of the handler stays pending for ever. *)
Definition never_settles (net : network) (req : request) : Prop :=
  net req = Pending \/
  exists resp, net req = Fulfilled resp /\ json resp = Pending.

End Script.
End Page.


(* ===================================================================== *)
(** * The page: the listeners around the functions *)
(* ===================================================================== *)
Module PageExt.
Import Js Page.
Local Open Scope js_scope.

(** The user picks [domain] in the domain select: the browser stores the
    value, then fires [change]. *)
Definition select_domain (domain : string) (p : page) : page :=
  {| question_value := question_value p; domain_value := domain;
     topic_value := topic_value p; topic_children := topic_children p;
     loader_classes := loader_classes p; button_disabled := button_disabled p;
     result_classes := result_classes p; result_content := result_content p |}.

Definition is_markup (c : content) : bool :=
  match c with Markup _ => true | Text _ => false end.

Section Script.
Context {NUM : Numeric} {JSON : Json}.
Variable window_TOPIC_OPTIONS : option (gmap string (list string)).

(** Lines 21-23: the [change] listener of the domain select. *)
Definition domain_changed (domain : string) (p : page) : page * completion unit :=
  updateTopicOptions window_TOPIC_OPTIONS (select_domain domain p).

(** Lines 71-74: the submit handler up to its [try]. *)
Definition prepare (p : page) : page :=
  setLoading true
    (set_result_content (Text EmptyString)
       (set_result_classes (result_classes p ∪ {["hidden"]}) p)).

(** How the promise of the [async] handler settles, lines 75-94: it
    fulfils when the [try] block ends normally, and otherwise as the
    [catch] block ends ([finally] does not throw); [None] when an awaited
    promise never settles. *)
Definition submit_completion (net : network) (p : page) : option (completion unit) :=
  match try_block net (prepare p) with
  | None => None
  | Some (_, Normal _) => Some (Normal tt)
  | Some (p', Throw m) => Some (snd (catch_block m p'))
  end.

(** The text the [catch] block shows for an error with this message. *)
Definition error_text (message : string) : string :=
  if bool_decide (message = EmptyString) then unknown_error else message.

Definition is_number (v : value) : bool :=
  match v with VNum _ => true | _ => false end.

(** Nothing that the earlier [renderResult] prints for this step throws:
    the variable and the formula print, and the value has [toFixed]. *)
Definition step_prints_text (step : value) : bool :=
  negb (shadows_toString (get_or_undefined step "variable")) &&
  negb (shadows_toString (get_or_undefined step "formula")) &&
  is_number (get_or_undefined step "value").

(** ** The submit handler of the earlier revision: the same statements
    around the earlier [renderResult]. *)
Definition try_block_text (net : network) (p : page)
  : option (page * completion unit) :=
  match net (solve_request p) with
  | Pending => None
  | Rejected m => Some (p, Throw m)
  | Fulfilled resp =>
      match json resp with
      | Pending => None
      | Rejected m => Some (p, Throw m)
      | Fulfilled data => Some (renderResult_text data p)
      end
  end.

Definition catch_block_text (message : string) (p : page) : page * completion unit :=
  renderResult_text (VObj [ ("status", VStr "error"); ("message", VStr message) ]) p.

Definition submit_text (net : network) (p : page) : run :=
  let p := set_result_classes (result_classes p ∪ {["hidden"]}) p in
  let p := set_result_content (Text EmptyString) p in
  let p := setLoading true p in
  {| sent := [ solve_request p ];
     suspended := p;
     finished :=
       match try_block_text net p with
       | None => None
       | Some (p', Normal _) => Some (setLoading false p')
       | Some (p', Throw m) => Some (setLoading false (fst (catch_block_text m p')))
       end |}.

(** Two pages that differ at most in what the result element shows. *)
Definition same_but_content (p q : page) : Prop :=
  question_value p = question_value q /\
  domain_value p = domain_value q /\
  topic_value p = topic_value q /\
  topic_children p = topic_children q /\
  loader_classes p = loader_classes q /\
  button_disabled p = button_disabled q /\
  result_classes p = result_classes q.

End Script.
End PageExt.

(* ===================================================================== *)
(** * The solve pipeline behind [/api/solve] *)
(* ===================================================================== *)
Module Core.

(** Modelled from the spec: the arithmetic of the symbolic engine, which is
    not among the scripts.  Node evaluation is pure arithmetic on numeric
    values; an operation applied outside its domain (division by zero,
    logarithm of a non-positive number) has no value. *)
Class Arithmetic := {
  num : Type;
  op : Type;
  apply_op : op -> list num -> option num;
}.

Section Pipeline.
Context {ARITH : Arithmetic}.

(** Modelled from the spec: the data model of the core (TaskPlan,
    FormulaCard, VariableBinding, ComputationStep, VerificationResult,
    SolveResult), which is not among the scripts. *)
Record TaskPlan := {
  plan_variables : list string;
  plan_domain : string;
  plan_topic : string;
  plan_window : string;
  plan_question : string;
}.

(** A leaf of the expression graph is an input variable or a constant; an
    operand may also be the result of an earlier node. *)
Inductive operand :=
| Input (name : string)
| Const (c : num)
| Ref (variable : string).

(** A node: the variable it produces, its sub-formula text, its operator
    and operands. *)
Record node := {
  node_variable : string;
  node_formula : string;
  node_op : op;
  node_args : list operand;
}.

(** A card lists the nodes of its expression graph in a topological order. *)
Record FormulaCard := {
  card_id : string;
  card_domain : string;
  card_topic : string;
  required_inputs : list string;
  nodes : list node;
  output_var : string;
}.

(** A binding: the numeric value and its provenance reference. *)
Record binding := {
  bound_value : num;
  provenance : string;
}.

Record ComputationStep := {
  step_index : nat;
  step_variable : string;
  step_formula : string;
  step_value : num;
}.

Inductive severity := hard | soft.

Record VerificationResult := {
  check_name : string;
  passed : bool;
  check_severity : severity;
  detail : string;
}.

(** What the selector returns: the card, the selection confidence, the
    reason, and whether the heuristic fallback chose it. *)
Record Selection := {
  selected : FormulaCard;
  selection_confidence : Q;
  selection_reason : string;
  is_fallback : bool;
}.

Inductive SolveResult :=
| Success (card : string) (reason : string) (inputs : list (string * binding))
          (steps : list ComputationStep) (out_var : string) (out_value : num)
          (fallback : bool)
| Refused (reason : string) (missing_inputs : option (list string))
| Errored (message : string).

(** Modelled from the spec: the configuration the core consumes and its
    two collaborators inside the process, none of which is among the
    scripts.  The selector stands for rule matching with heuristic fallback
    ([None] is NoMatchingCardError); the checks are the verification
    battery, in the fixed order in which they run. *)
Class Configuration := {
  select : TaskPlan -> option Selection;
  checks : list (FormulaCard -> gmap string binding -> list ComputationStep ->
                 VerificationResult);
  threshold : Q;
  fallback_penalty : Q;
}.

Context {CONF : Configuration}.

(** Modelled from the spec: the stages of the pipeline (binding
    completeness, SymbolicEngine, VerificationLayer, ConfidenceScorer,
    AuditAssembler), which are not among the scripts. *)

(** The required inputs that have no binding, in the card's order. *)
Definition missing_inputs (card : FormulaCard) (b : gmap string binding)
  : list string :=
  filter (fun name => b !! name = None) (required_inputs card).

Definition operand_value (b : gmap string binding) (env : gmap string num)
    (o : operand) : option num :=
  match o with
  | Input name => bound_value <$> b !! name
  | Const c => Some c
  | Ref variable => env !! variable
  end.

(** One node: the values of its operands, then the operator. *)
Definition evaluate_node (b : gmap string binding) (env : gmap string num)
    (n : node) : option num :=
  args ← mapM (operand_value b env) (node_args n); apply_op (node_op n) args.

(** The nodes in order, numbering the steps from [index]; an
    EvaluationError names the offending step. *)
Fixpoint evaluate_nodes (b : gmap string binding) (env : gmap string num)
    (index : nat) (ns : list node) : string + (list ComputationStep * gmap string num) :=
  match ns with
  | [] => inr ([], env)
  | n :: rest =>
      match evaluate_node b env n with
      | None => inl (node_variable n)
      | Some v =>
          match evaluate_nodes b (<[node_variable n := v]> env) (S index) rest with
          | inl e => inl e
          | inr (steps, env') =>
              inr ({| step_index := index; step_variable := node_variable n;
                      step_formula := node_formula n; step_value := v |} :: steps,
                   env')
          end
      end
  end.

(** The SymbolicEngine: the step sequence and the value of the card's
    output variable. *)
Definition evaluate (card : FormulaCard) (b : gmap string binding)
  : string + (list ComputationStep * num) :=
  match evaluate_nodes b ∅ 1 (nodes card) with
  | inl e => inl e
  | inr (steps, env) =>
      match env !! output_var card with
      | Some v => inr (steps, v)
      | None => inl (output_var card)
      end
  end.

(** The VerificationLayer: every check, in order. *)
Definition verify (card : FormulaCard) (b : gmap string binding)
    (steps : list ComputationStep) : list VerificationResult :=
  (fun check => check card b steps) <$> checks.

Definition is_hard_failure (r : VerificationResult) : bool :=
  negb (passed r) && match check_severity r with hard => true | soft => false end.

Definition is_soft (r : VerificationResult) : bool :=
  match check_severity r with soft => true | hard => false end.

Definition first_hard_failure (rs : list VerificationResult)
  : option VerificationResult :=
  List.find is_hard_failure rs.

(** [n / d] as a rational, 1 when there is nothing to count. *)
Definition ratio (n d : nat) : Q :=
  match d with
  | O => 1
  | S _ => Z.of_nat n # Pos.of_nat d
  end.

(** Bound required inputs over required inputs. *)
Definition completeness (card : FormulaCard) (b : gmap string binding) : Q :=
  ratio (length (required_inputs card) - length (missing_inputs card b))
        (length (required_inputs card)).

(** The fraction of soft checks that passed. *)
Definition soft_pass_fraction (rs : list VerificationResult) : Q :=
  ratio (length (List.filter passed (List.filter is_soft rs)))
        (length (List.filter is_soft rs)).

(** The ConfidenceScorer: the minimum of the three sub-scores, scaled by
    the fallback penalty for a heuristic selection. *)
Definition confidence (sel : Selection) (b : gmap string binding)
    (rs : list VerificationResult) : Q :=
  Qmin (selection_confidence sel)
       (Qmin (completeness (selected sel) b) (soft_pass_fraction rs))
  * (if is_fallback sel then fallback_penalty else 1).

(** The AuditAssembler: every required input with its binding. *)
Definition bound_inputs (card : FormulaCard) (b : gmap string binding)
  : list (string * binding) :=
  omap (fun name => pair name <$> b !! name) (required_inputs card).

Definition assemble (sel : Selection) (b : gmap string binding)
    (steps : list ComputationStep) (out : num) : SolveResult :=
  Success (card_id (selected sel)) (selection_reason sel)
          (bound_inputs (selected sel) b) steps
          (output_var (selected sel)) out (is_fallback sel).

(** Modelled from the spec: the state machine of one request,
    [Interpreted -> Bound -> Computed -> Verified -> Scored ->
    {Answered | Refused | Errored}], which is not among the scripts. *)
Inductive state :=
| Interpreted (plan : TaskPlan) (b : gmap string binding)
| Bound (sel : Selection) (b : gmap string binding)
| Computed (sel : Selection) (b : gmap string binding)
           (steps : list ComputationStep) (out : num)
| Verified (sel : Selection) (b : gmap string binding)
           (steps : list ComputationStep) (out : num)
           (results : list VerificationResult)
| Scored (sel : Selection) (b : gmap string binding)
         (steps : list ComputationStep) (out : num) (score : Q)
| Final (result : SolveResult).

Inductive transition : state -> state -> Prop :=
| no_matching_card plan b :
    select plan = None ->
    transition (Interpreted plan b) (Final (Refused "no matching card" None))
| card_selected plan b sel :
    select plan = Some sel ->
    transition (Interpreted plan b) (Bound sel b)
| missing_input sel b :
    missing_inputs (selected sel) b <> [] ->
    transition (Bound sel b)
      (Final (Refused "missing required input"
                (Some (missing_inputs (selected sel) b))))
| evaluated sel b steps out :
    missing_inputs (selected sel) b = [] ->
    evaluate (selected sel) b = inr (steps, out) ->
    transition (Bound sel b) (Computed sel b steps out)
| evaluation_error sel b offending :
    missing_inputs (selected sel) b = [] ->
    evaluate (selected sel) b = inl offending ->
    transition (Bound sel b) (Final (Errored ("evaluation error at " +:+ offending)))
| checked sel b steps out :
    transition (Computed sel b steps out)
      (Verified sel b steps out (verify (selected sel) b steps))
| hard_failure sel b steps out results failing :
    first_hard_failure results = Some failing ->
    transition (Verified sel b steps out results)
      (Final (Refused (detail failing) None))
| scored sel b steps out results :
    first_hard_failure results = None ->
    transition (Verified sel b steps out results)
      (Scored sel b steps out (confidence sel b results))
| low_confidence sel b steps out score :
    Qle_bool threshold score = false ->
    transition (Scored sel b steps out score)
      (Final (Refused "low confidence" None))
| answered sel b steps out score :
    Qle_bool threshold score = true ->
    transition (Scored sel b steps out score) (Final (assemble sel b steps out)).

(** Running the pipeline on a plan and a binding set ends in [result]. *)
Definition solves (plan : TaskPlan) (b : gmap string binding)
    (result : SolveResult) : Prop :=
  rtc transition (Interpreted plan b) (Final result).

(** The pipeline as a function, stage after stage. *)
Definition solve_selected (sel : Selection) (b : gmap string binding)
  : SolveResult :=
  match missing_inputs (selected sel) b with
  | name :: others => Refused "missing required input" (Some (name :: others))
  | [] =>
      match evaluate (selected sel) b with
      | inl offending => Errored ("evaluation error at " +:+ offending)
      | inr (steps, out) =>
          let results := verify (selected sel) b steps in
          match first_hard_failure results with
          | Some failing => Refused (detail failing) None
          | None =>
              if Qle_bool threshold (confidence sel b results)
              then assemble sel b steps out
              else Refused "low confidence" None
          end
      end
  end.

Definition solve (plan : TaskPlan) (b : gmap string binding) : SolveResult :=
  match select plan with
  | None => Refused "no matching card" None
  | Some sel => solve_selected sel b
  end.

End Pipeline.
End Core.
(* ===================================================================== *)
(** * A concrete engine fragment, for closed examples *)
(* ===================================================================== *)
Module Fragment.
Import Js.

(** The integer fragment of the number type: [Some z] is the double of the
    integer [z] (of magnitude below 2^53), [None] is [NaN].  On it the
    built-ins print plain decimal numerals; strings that denote other
    numbers are outside the fragment. *)
Definition int_toString (z : Z) : string := NilZero.string_of_int (Z.to_int z).

#[export] Instance int_numeric : Numeric := {|
  num := option Z;
  NaN := None;
  num_of_Z := Some;
  num_is_falsy := fun n => match n with Some z => Z.eqb z 0 | None => true end;
  Number_toString := fun n => match n with Some z => int_toString z | None => "NaN" end;
  toFixed4 := fun n =>
    match n with Some z => int_toString z +:+ ".0000" | None => "NaN" end;
  StringToNumber := fun s =>
    if bool_decide (s = EmptyString) then Some 0%Z
    else Z.of_int <$> NilZero.int_of_string s;
|}.

(** [QuoteJSONString] on strings without control characters. *)
Fixpoint escape (s : string) : string :=
  match s with
  | EmptyString => EmptyString
  | String c rest =>
      if bool_decide (c = "034"%char) then String "\"%char (String c (escape rest))
      else if bool_decide (c = "\"%char) then String c (String c (escape rest))
      else String c (escape rest)
  end.

Definition quote (s : string) : string := dq +:+ escape s +:+ dq.

Definition spaces (n : nat) : string := String.concat EmptyString (replicate n " ").

(** [SerializeJSONArray] / [SerializeJSONObject] layout of the parts. *)
Definition bracket (opening closing : string) (gap depth : nat) (parts : list string)
  : string :=
  match parts with
  | [] => opening +:+ closing
  | _ =>
      if Nat.eqb gap 0 then opening +:+ intercalate "," parts +:+ closing
      else opening +:+ nl +:+ spaces (gap * S depth)
             +:+ intercalate ("," +:+ nl +:+ spaces (gap * S depth)) parts
             +:+ nl +:+ spaces (gap * depth) +:+ closing
  end.

(** [SerializeJSONProperty]: [None] for [undefined]. *)
Fixpoint serialize (gap depth : nat) (v : value) : option string :=
  match v with
  | VUndefined => None
  | VNull => Some "null"
  | VBool true => Some "true"
  | VBool false => Some "false"
  | VNum None => Some "null"
  | VNum (Some z) => Some (int_toString z)
  | VStr s => Some (quote s)
  | VArr elems =>
      Some (bracket "[" "]" gap depth
              ((fix go (l : list value) : list string :=
                  match l with
                  | [] => []
                  | e :: rest => default "null" (serialize gap (S depth) e) :: go rest
                  end) elems))
  | VObj props =>
      Some (bracket "{" "}" gap depth
              ((fix go (l : list (string * value)) : list string :=
                  match l with
                  | [] => []
                  | (k, e) :: rest =>
                      match serialize gap (S depth) e with
                      | Some str =>
                          (quote k +:+ ":" +:+ (if Nat.eqb gap 0 then EmptyString else " ")
                             +:+ str) :: go rest
                      | None => go rest
                      end
                  end) props))
  end.

#[export] Instance int_json : Json := {|
  JSON_stringify := fun v gap => default "undefined" (serialize gap 0 v);
|}.

(** ** Sample responses *)
Import Page.

Definition sample_page : page :=
  {| question_value := "What is the Sharpe ratio of the fund?";
     domain_value := "portfolio";
     topic_value := EmptyString;
     topic_children := [ default_option ];
     loader_classes := {[ "loader"; "hidden" ]};
     button_disabled := false;
     result_classes := {[ "result"; "hidden" ]};
     result_content := Text EmptyString |}.

Definition step_object (variable formula : string) (v : value) : value :=
  VObj [ ("variable", VStr variable); ("formula", VStr formula); ("value", v) ].

Definition success_object (steps : list value) (is_fallback : value) : value :=
  VObj [ ("status", VStr "success");
         ("card_id", VStr "sharpe_ratio");
         ("selection_reason", VStr "rule match on domain and topic");
         ("inputs", VObj [ ("mean", VNum (Some 8%Z)); ("std", VNum (Some 2%Z));
                           ("rf", VNum (Some 2%Z)) ]);
         ("steps", VArr steps);
         ("output_var", VStr "sharpe");
         ("output_value", VNum (Some 3%Z));
         ("is_fallback", is_fallback) ].



Definition sharpe_success : value :=
  success_object
    [ step_object "excess_return" "mean - rf" (VNum (Some 6%Z));
      step_object "sharpe" "excess_return / std" (VNum (Some 3%Z)) ]
    (VBool false).



(** A success whose only step has, as its value, an object with an own
    property named [toString]. *)
Definition shadowed_value_success : value :=
  success_object
    [ step_object "sharpe" "excess_return / std"
        (VObj [ ("toString", VNum (Some 1%Z)) ]) ]
    (VBool false).

Definition refused_missing_std : value :=
  VObj [ ("status", VStr "refused");
         ("reason", VStr "missing required input");
         ("missing_inputs", VArr [ VStr "std" ]) ].



End Fragment.


(* ===================================================================== *)
(** * A concrete card, for closed examples of the pipeline *)
(* ===================================================================== *)
Module Sharpe.
Import Core.

Inductive arith_op := Sub | Div.

(** Exact rational arithmetic with subtraction and division. *)
#[export] Instance rational : Arithmetic := {|
  num := Q;
  op := arith_op;
  apply_op := fun o args =>
    match o, args with
    | Sub, [a; b] => Some (Qred (a - b))
    | Div, [a; b] => if Qeq_bool b 0 then None else Some (Qred (a / b))
    | _, _ => None
    end;
|}.

(** The Sharpe ratio: [excess_return = mean - rf], then
    [sharpe = excess_return / std]. *)
Definition sharpe_card : FormulaCard :=
  {| card_id := "sharpe";
     card_domain := "portfolio";
     card_topic := "risk-adjusted return";
     required_inputs := [ "mean"; "std"; "rf" ];
     nodes :=
       [ {| node_variable := "excess_return"; node_formula := "mean - rf";
            node_op := Sub; node_args := [ Input "mean"; Input "rf" ] |};
         {| node_variable := "sharpe"; node_formula := "excess_return / std";
            node_op := Div; node_args := [ Ref "excess_return"; Input "std" ] |} ];
     output_var := "sharpe" |}.

(** The statistical invariant [std >= 0], a hard check. *)
Definition std_nonnegative (card : FormulaCard) (b : gmap string binding)
    (steps : list ComputationStep) : VerificationResult :=
  {| check_name := "std-nonnegative";
     passed := match b !! "std" with
               | Some x => Qle_bool 0 (bound_value x)
               | None => true
               end;
     check_severity := hard;
     detail := "standard deviation must not be negative" |}.

Definition sharpe_selection : Selection :=
  {| selected := sharpe_card;
     selection_confidence := 9 # 10;
     selection_reason := "rule match on domain and topic";
     is_fallback := false |}.

#[export] Instance configuration : Configuration := {|
  select := fun _ => Some sharpe_selection;
  checks := [ std_nonnegative ];
  threshold := 1 # 2;
  fallback_penalty := 8 # 10;
|}.

Definition sharpe_plan : TaskPlan :=
  {| plan_variables := [ "mean"; "std"; "rf" ];
     plan_domain := "portfolio";
     plan_topic := "risk-adjusted return";
     plan_window := "annual";
     plan_question := "What is the Sharpe ratio of the fund?" |}.

Definition user_supplied (v : Q) : binding :=
  {| bound_value := v; provenance := "user-supplied" |}.

(** [mean = 0.08], [std = 0.12], [rf = 0.02]. *)
Definition full_bindings : gmap string binding :=
  <["mean" := user_supplied (8 # 100)]>
    (<["std" := user_supplied (12 # 100)]>
       (<["rf" := user_supplied (2 # 100)]> ∅)).

(** The same with [std] unbound. *)
Definition bindings_without_std : gmap string binding :=
  <["mean" := user_supplied (8 # 100)]>
    (<["rf" := user_supplied (2 # 100)]> ∅).

End Sharpe.

(* ===================================================================== *)
(** * More sample responses *)
(* ===================================================================== *)
Module Samples.
Import Js Page Fragment.

(** The body of an HTTP error that is not of the boundary format. *)
Definition not_found_body : value :=
  VObj [ ("detail", VStr "Not Found") ].

(** A success whose step value arrives as a string. *)
Definition string_value_success : value :=
  success_object [ step_object "sharpe" "excess_return / std" (VStr "3") ] (VBool false).

(** A success without a [steps] field. *)
Definition success_without_steps : value :=
  VObj [ ("status", VStr "success"); ("card_id", VStr "sharpe_ratio") ].


Definition answers (data : value) : network :=
  fun _ => Fulfilled {| json := Fulfilled data |}.

(** A network on which every [fetch] fails. *)
Definition refuses_connection : network :=
  fun _ => Rejected "Failed to fetch".

End Samples.
(* ===================================================================== *)
(** * Facts about the JavaScript fragment *)
(* ===================================================================== *)
Module JsFacts.
Import Js.
Local Open Scope js_scope.

Section Facts.
Context {NUM : Numeric}.

(** Whether every callback of a [map] returns, when that does not depend on
    the index. *)
Lemma is_normal_cmap_imap {A B} (f : nat -> A -> completion B) (g : A -> bool)
    (l : list A) :
  (forall i a, a ∈ l -> is_normal (f i a) = g a) ->
  is_normal (cmap id (imap f l)) = forallb g l.
Proof.
  revert f. induction l as [|a l IH]; intros f Hf; [done|].
  cbn [imap cmap id forallb]. rewrite <- (Hf 0 a) by left.
  destruct (f 0 a) as [b|m]; cbn [cbind is_normal andb]; [|done].
  rewrite <- (IH (f ∘ S)) by (intros i x Hx; apply Hf; by right).
  by destruct (cmap id (imap (f ∘ S) l)).
Qed.

(** Induction on values, with the elements of an array as premises. *)
Lemma value_array_ind (P : value -> Prop) :
  P VUndefined -> P VNull -> (forall b, P (VBool b)) -> (forall n, P (VNum n)) ->
  (forall s, P (VStr s)) ->
  (forall elems, Forall P elems -> P (VArr elems)) ->
  (forall props, P (VObj props)) ->
  forall v, P v.
Proof.
  intros Hu Hn Hb Hnum Hs Harr Hobj. fix IH 1.
  intros [| |b|n|s|elems|props];
    [exact Hu|exact Hn|apply Hb|apply Hnum|apply Hs| |apply Hobj].
  apply Harr. induction elems as [|e rest IHrest]; constructor;
    [apply IH|exact IHrest].
Qed.

Lemma cbind_assoc {A B C} (c : completion A) (f : A -> completion B)
    (k : B -> completion C) :
  cbind (cbind c f) k = cbind c (fun a => cbind (f a) k).
Proof. by destruct c. Qed.

(** An array prints as its [join(",")]. *)
Lemma ToString_array (elems : list value) :
  ToString (VArr elems) = Array_join elems ",".
Proof.
  unfold Array_join. cbn [ToString].
  generalize (fun parts : list string => Normal (intercalate "," parts)).
  induction elems as [|e rest IH]; intros k; [reflexivity|].
  cbn [cmap]. rewrite !cbind_assoc.
  change (join_part e) with (match e with
                             | VUndefined | VNull => Normal EmptyString
                             | _ => ToString e
                             end).
  destruct (match e with
            | VUndefined | VNull => Normal EmptyString
            | _ => ToString e
            end) as [p|m]; cbn [cbind]; [|reflexivity].
  rewrite !cbind_assoc. cbn [cbind]. apply (IH (fun ps => k (p :: ps))).
Qed.

Lemma shadows_toString_array (elems : list value) :
  shadows_toString (VArr elems) = existsb shadows_toString elems.
Proof.
  cbn [shadows_toString]. induction elems as [|e rest IH]; [done|].
  cbn [existsb]. by rewrite IH.
Qed.

Lemma is_normal_cmap {A B} (f : A -> completion B) (l : list A) :
  is_normal (cmap f l) = forallb (fun a => is_normal (f a)) l.
Proof.
  induction l as [|a l IH]; [done|]. cbn [cmap forallb].
  destruct (f a); cbn [cbind is_normal andb]; [|done].
  rewrite <- IH. by destruct (cmap f l).
Qed.

(** [ToString] throws exactly on the values that shadow [toString]. *)
Lemma ToString_normal (v : value) :
  is_normal (ToString v) = negb (shadows_toString v).
Proof.
  induction v as [| |[]| | |elems IH|props] using value_array_ind;
    try reflexivity.
  - rewrite ToString_array, shadows_toString_array. unfold Array_join.
    transitivity (is_normal (cmap join_part elems)).
    { by destruct (cmap join_part elems). }
    rewrite is_normal_cmap.
    induction IH as [|e rest He _ IHrest]; [done|].
    cbn [forallb existsb]. rewrite negb_orb, <- IHrest. f_equal.
    rewrite <- He. by destruct e.
  - cbn [ToString shadows_toString]. by destruct (has_own props "toString").
Qed.

Lemma ToNumber_normal (v : value) :
  is_normal (ToNumber v) = negb (shadows_toString v).
Proof.
  destruct v as [| |[]| | |elems|props]; try reflexivity.
  - unfold ToNumber. rewrite <- ToString_normal. by destruct (ToString _).
  - unfold ToNumber. rewrite <- ToString_normal. by destruct (ToString _).
Qed.

(** [v || "literal"] shadows [toString] exactly when [v] does. *)
Lemma shadows_or_else (v : value) (lit : string) :
  shadows_toString (or_else v (VStr lit)) = shadows_toString v.
Proof. unfold or_else. destruct v as [| |[]|n|s| |]; cbn; try done.
  - by destruct (num_is_falsy n).
  - by destruct (bool_decide (s = EmptyString)).
Qed.

End Facts.
End JsFacts.

(* ===================================================================== *)
(** * Facts about the page script *)
(* ===================================================================== *)
Module PageFacts.
Import Js Page JsFacts.
Local Open Scope js_scope.

Section Facts.
Context {NUM : Numeric} {JSON : Json}.

Lemma showing_shown c p : shown (result_classes (showing c p)).
Proof.
  unfold shown, showing. cbn. rewrite elem_of_difference, elem_of_singleton.
  by intros [_ Hne].
Qed.

Lemma renderResult_rendered data p c :
  rendered data = Normal c -> renderResult data p = (showing c p, Normal tt).
Proof. intros Hc. unfold renderResult. by rewrite Hc. Qed.

Lemma renderResult_text_rendered data p c :
  rendered_text data = Normal c -> renderResult_text data p = (showing c p, Normal tt).
Proof. intros Hc. unfold renderResult_text. by rewrite Hc. Qed.

(** *** Step lines *)









(** *** Refused responses *)





(** *** The calculation mode badge *)


(** *** The topic select *)
Section Topics.
Variable window_TOPIC_OPTIONS : option (gmap string (list string)).

Lemma foldl_appendChild (sel : select_el) (topics : list string) :
  foldl (fun sel topic => appendChild sel (topic_option topic)) sel topics
  = (sel ++ (topic_option <$> topics))%list.
Proof.
  revert sel. induction topics as [|t topics IH]; intros sel; cbn [foldl].
  - by rewrite app_nil_r.
  - rewrite IH. unfold appendChild. by rewrite <- app_assoc.
Qed.

(** C7.  Whatever the domain select holds, [updateTopicOptions] leaves the
    topic select with the default option 全部主題 (empty value) first,
    followed by one option per entry of [window.TOPIC_OPTIONS[domain]], in
    the order of the entries; nothing follows the default option when the
    domain is the empty string or has no entry in the mapping. *)
Theorem updateTopicOptions_children (p : page) :
  topic_children (fst (updateTopicOptions window_TOPIC_OPTIONS p)) =
  {| opt_value := EmptyString; opt_text := "全部主題" |} ::
  ((fun topic => {| opt_value := topic; opt_text := topic |}) <$>
     (if bool_decide (domain_value p = EmptyString) then []
      else match default ∅ window_TOPIC_OPTIONS !! domain_value p with
           | Some topics => topics
           | None => []
           end)).
Proof.
  unfold updateTopicOptions, topicOptions_get, topicOptions.
  destruct (bool_decide (domain_value p = EmptyString)); [done|].
  destruct (default ∅ window_TOPIC_OPTIONS !! domain_value p) as [topics|].
  - cbn [fst set_topic topic_children]. by rewrite foldl_appendChild.
  - by destruct (bool_decide (domain_value p ∈ Object_prototype_keys)).
Qed.

End Topics.

(** *** The submit handler *)

(** C6.  A form submission issues exactly one request: a POST to
    [/api/solve] whose body is the serialization of an object with exactly
    the keys [question], [domain] and [topic], holding the text field's
    value and the two selected values, [null] standing for an empty
    selection. *)
Theorem submit_sends_one_post (net : network) (p : page) :
  sent (submit net p) =
  [ {| url := "/api/solve";
       method := "POST";
       headers := [ ("Content-Type", "application/json") ];
       body := JSON_stringify
                 (VObj [ ("question", VStr (question_value p));
                         ("domain", if bool_decide (domain_value p = EmptyString)
                                    then VNull else VStr (domain_value p));
                         ("topic", if bool_decide (topic_value p = EmptyString)
                                   then VNull else VStr (topic_value p)) ]) 0 |} ].
Proof.
  unfold submit, solve_request, payload, or_else.
  cbn [sent question_value domain_value topic_value setLoading set_loader
       set_result_content set_result_classes ToBoolean].
  by destruct (bool_decide (domain_value p = EmptyString)),
              (bool_decide (topic_value p = EmptyString)).
Qed.

Lemma setLoading_false_hidden p :
  "hidden" ∈ loader_classes (setLoading false p) /\
  button_disabled (setLoading false p) = false.
Proof.
  split; [|done]. cbn. apply elem_of_union_r. by apply elem_of_singleton.
Qed.

Lemma setLoading_true_shown p :
  shown (loader_classes (setLoading true p)) /\
  button_disabled (setLoading true p) = true.
Proof.
  split; [|done]. unfold shown. cbn.
  rewrite elem_of_difference, elem_of_singleton. by intros [_ Hne].
Qed.

(** C10.  A submission first puts the page into the loading state (loader
    shown, button disabled); when the handler has run to its end, whether
    the fetch, the parse and the render succeeded or one of them threw, the
    loader carries [hidden] and the button is enabled.  The handler runs to
    its end unless an awaited promise never settles. *)
Theorem submit_loading_state (net : network) (p : page) :
  shown (loader_classes (suspended (submit net p))) /\
  button_disabled (suspended (submit net p)) = true /\
  match finished (submit net p) with
  | Some q => "hidden" ∈ loader_classes q /\ button_disabled q = false
  | None => never_settles net (solve_request p)
  end.
Proof.
  unfold submit. cbn [suspended finished].
  split; [apply setLoading_true_shown|]. split; [apply setLoading_true_shown|].
  set (p1 := setLoading true _).
  assert (solve_request p1 = solve_request p) as Hreq by done.
  unfold try_block, never_settles. rewrite Hreq.
  destruct (net (solve_request p)) as [|m|resp] eqn:Hnet.
  - by left.
  - apply setLoading_false_hidden.
  - destruct (json resp) as [|m|data] eqn:Hjson.
    + right. by exists resp.
    + apply setLoading_false_hidden.
    + destruct (renderResult data p1) as [p' [[]|m]];
        apply setLoading_false_hidden.
Qed.

(** *** When rendering completes *)

Lemma stepItem_normal idx props :
  is_normal (stepItem idx (VObj props)) = step_prints (VObj props).
Proof.
  unfold stepItem, step_prints, get_or_undefined. cbn [Get cbind].
  rewrite <- ToString_normal, <- (shadows_or_else _ "公式"), <- ToString_normal,
    <- ToNumber_normal.
  destruct (ToString (default VUndefined (own props "variable")));
    cbn [cbind is_normal andb]; [|done].
  destruct (ToString (or_else (default VUndefined (own props "formula")) _));
    cbn [cbind is_normal andb]; [|done].
  by destruct (ToNumber (default VUndefined (own props "value"))).
Qed.

(** C9 (amended).  For a success response whose steps are objects,
    [renderResult] of [src/static/app.js] completes without throwing exactly
    when nothing it prints (each step's variable, formula and value; the
    card id, the selection reason, the output variable and value) is, or
    holds inside arrays, an object with an own property named [toString].
    In particular a step's value may be missing, [null], a boolean, a number
    or a string. *)
Theorem renderResult_completes data steps p :
  field data "status" (VStr "success") ->
  field data "steps" (VArr steps) ->
  Forall (fun step => is_object step = true) steps ->
  is_normal (snd (renderResult data p)) =
  forallb step_prints steps && frame_prints data.
Proof.
  unfold field. intros Hst Hs Hobj.
  transitivity (is_normal (rendered data)).
  { unfold renderResult, assign_result. by destruct (rendered data). }
  destruct data as [| | | | | |props]; try discriminate Hst.
  unfold rendered. rewrite Hst. cbn [cbind strict_eq_str].
  rewrite bool_decide_eq_true_2 by done. rewrite Hs. cbn [cbind call_map].
  assert (is_normal (cmap id (imap stepItem steps)) = forallb step_prints steps)
    as Hmap.
  { apply is_normal_cmap_imap. intros i step Hin.
    rewrite Forall_forall in Hobj. specialize (Hobj step Hin).
    destruct step; try discriminate Hobj. apply stepItem_normal. }
  rewrite <- Hmap.
  destruct (cmap id (imap stepItem steps)) as [items|m];
    cbn [cbind is_normal andb]; [|done].
  unfold frame_prints, get_or_undefined. cbn [Get cbind].
  rewrite <- !ToString_normal.
  destruct (ToString (default VUndefined (own props "card_id")));
    cbn [cbind is_normal andb]; [|done].
  destruct (ToString (default VUndefined (own props "selection_reason")));
    cbn [cbind is_normal andb]; [|done].
  destruct (ToString (default VUndefined (own props "output_var")));
    cbn [cbind is_normal andb]; [|done].
  by destruct (ToString (default VUndefined (own props "output_value"))).
Qed.

(** *** The two revisions side by side *)




End Facts.
End PageFacts.

(* ===================================================================== *)
(** * Further facts about the page script *)
(* ===================================================================== *)
Module PageExtFacts.
Import Js Page PageExt JsFacts PageFacts.
Local Open Scope js_scope.

Section Facts.
Context {NUM : Numeric} {JSON : Json}.

(** *** What a render leaves alone *)

Lemma assign_result_frame (c : completion content) (p : page) :
  question_value (fst (assign_result c p)) = question_value p /\
  domain_value (fst (assign_result c p)) = domain_value p /\
  topic_value (fst (assign_result c p)) = topic_value p /\
  topic_children (fst (assign_result c p)) = topic_children p /\
  loader_classes (fst (assign_result c p)) = loader_classes p /\
  button_disabled (fst (assign_result c p)) = button_disabled p /\
  result_classes (fst (assign_result c p)) = result_classes p.
Proof. by destruct c. Qed.

Lemma renderResult_shown data p :
  shown (result_classes (fst (renderResult data p))).
Proof.
  unfold renderResult.
  destruct (assign_result_frame (rendered data)
              (set_result_classes (result_classes p ∖ {["hidden"]}) p))
    as (_ & _ & _ & _ & _ & _ & ->).
  unfold shown. cbn. rewrite elem_of_difference, elem_of_singleton.
  by intros [_ Hne].
Qed.

Lemma solve_request_frame (p q : page) :
  question_value q = question_value p ->
  domain_value q = domain_value p ->
  topic_value q = topic_value p ->
  solve_request q = solve_request p.
Proof. unfold solve_request, payload. by intros -> -> ->. Qed.

(** *** The [catch] block *)

Lemma rendered_error_object (message : string) :
  rendered (VObj [ ("status", VStr "error"); ("message", VStr message) ])
  = Normal (Text (error_text message)).
Proof.
  set (obj := VObj [ ("status", VStr "error"); ("message", VStr message) ]).
  assert (Get obj "status" = Normal (VStr "error")) as Hst by reflexivity.
  assert (Get obj "message" = Normal (VStr message)) as Hm by reflexivity.
  unfold rendered. rewrite Hst, Hm. cbn [cbind strict_eq_str].
  rewrite !bool_decide_eq_false_2 by done.
  unfold or_else, error_text. cbn [ToBoolean].
  by destruct (bool_decide (message = EmptyString)).
Qed.

Lemma catch_block_shows message p :
  catch_block message p = (showing (Text (error_text message)) p, Normal tt).
Proof.
  unfold catch_block. apply renderResult_rendered, rendered_error_object.
Qed.

Lemma prepare_request p : solve_request (prepare p) = solve_request p.
Proof. done. Qed.

(** X3.  When [fetch] rejects, or [response.json()] rejects, with an error
    whose message is [m], the handler runs to its end and the result
    element is visible and shows [m] as plain text, or 系統發生未知錯誤 when
    [m] is empty. *)
Theorem submit_rejection_shows_message (net : network) (p : page) (m : string) :
  (net (solve_request p) = Rejected m \/
   exists resp, net (solve_request p) = Fulfilled resp /\ json resp = Rejected m) ->
  exists q,
    finished (submit net p) = Some q /\
    shown (result_classes q) /\
    result_content q = Text (if bool_decide (m = EmptyString)
                             then "系統發生未知錯誤" else m).
Proof.
  intros Hrej. unfold submit. cbn [finished].
  change (setLoading true _) with (prepare p).
  unfold try_block. rewrite prepare_request.
  assert (exists q,
            Some (setLoading false (fst (catch_block m (prepare p)))) = Some q /\
            shown (result_classes q) /\
            result_content q = Text (error_text m)) as Hcatch.
  { eexists. split; [reflexivity|]. rewrite catch_block_shows. cbn [fst].
    split; [apply showing_shown|done]. }
  destruct Hrej as [Hnet|(resp & Hnet & Hjson)]; rewrite Hnet.
  - exact Hcatch.
  - rewrite Hjson. exact Hcatch.
Qed.

(** X4.  When the response arrives and parses to [data], the handler runs
    to its end with the result element visible; it shows what
    [renderResult] assigns for [data], or, when [renderResult] throws, the
    thrown error's message as plain text (系統發生未知錯誤 for an empty
    message). *)
Theorem submit_fulfilled_shows (net : network) (p : page) resp data :
  net (solve_request p) = Fulfilled resp ->
  json resp = Fulfilled data ->
  exists q,
    finished (submit net p) = Some q /\
    shown (result_classes q) /\
    result_content q =
      match rendered data with
      | Normal c => c
      | Throw m => Text (if bool_decide (m = EmptyString)
                         then "系統發生未知錯誤" else m)
      end.
Proof.
  intros Hnet Hjson. unfold submit. cbn [finished].
  change (setLoading true _) with (prepare p).
  unfold try_block. rewrite prepare_request, Hnet, Hjson.
  unfold renderResult. destruct (rendered data) as [c|m]; cbn [assign_result].
  - eexists. split; [reflexivity|]. split; [|done]. apply showing_shown.
  - eexists. split; [reflexivity|]. rewrite catch_block_shows. cbn [fst].
    split; [|done]. unfold shown. cbn.
    rewrite !elem_of_difference, elem_of_singleton. by intros [_ Hne].
Qed.

(** X5.  While the handler waits for the answer, the result element is
    hidden and empty; whenever the handler has run to its end, the result
    element is visible again. *)
Theorem submit_result_lifecycle (net : network) (p : page) :
  "hidden" ∈ result_classes (suspended (submit net p)) /\
  result_content (suspended (submit net p)) = Text EmptyString /\
  match finished (submit net p) with
  | Some q => shown (result_classes q)
  | None => never_settles net (solve_request p)
  end.
Proof.
  split; [|split].
  - cbn. apply elem_of_union_r. by apply elem_of_singleton.
  - done.
  - unfold submit. cbn [finished]. change (setLoading true _) with (prepare p).
    unfold try_block, never_settles. rewrite prepare_request.
    destruct (net (solve_request p)) as [|m|resp] eqn:Hnet.
    + by left.
    + rewrite catch_block_shows. apply showing_shown.
    + destruct (json resp) as [|m|data] eqn:Hjson.
      * right. by exists resp.
      * rewrite catch_block_shows. apply showing_shown.
      * pose proof (renderResult_shown data (prepare p)) as Hshown.
        destruct (renderResult data (prepare p)) as [p' [[]|m]]; cbn [fst] in Hshown.
        -- exact Hshown.
        -- rewrite catch_block_shows. apply showing_shown.
Qed.

(** *** The handler and the form *)

Lemma renderResult_frame data p :
  question_value (fst (renderResult data p)) = question_value p /\
  domain_value (fst (renderResult data p)) = domain_value p /\
  topic_value (fst (renderResult data p)) = topic_value p /\
  topic_children (fst (renderResult data p)) = topic_children p.
Proof. unfold renderResult. by destruct (rendered data). Qed.

(** The page the handler ends on, when it does, is a render away from the
    page it prepared. *)
Lemma finished_form (net : network) (p q : page) :
  finished (submit net p) = Some q ->
  question_value q = question_value p /\
  domain_value q = domain_value p /\
  topic_value q = topic_value p /\
  topic_children q = topic_children p.
Proof.
  unfold submit. cbn [finished]. change (setLoading true _) with (prepare p).
  unfold try_block.
  destruct (net (solve_request (prepare p))) as [|m|resp]; [done| |].
  - rewrite catch_block_shows. by intros [= <-].
  - destruct (json resp) as [|m|data]; [done| |].
    + rewrite catch_block_shows. by intros [= <-].
    + pose proof (renderResult_frame data (prepare p)) as Hframe.
      destruct (renderResult data (prepare p)) as [p' [[]|m]]; cbn [fst] in Hframe.
      * by intros [= <-].
      * rewrite catch_block_shows. by intros [= <-].
Qed.

(** The handler fails to end only when an awaited promise never settles,
    and then it does fail to end. *)
Lemma submit_loading_state_none (net : network) (p : page) :
  finished (submit net p) = None <-> never_settles net (solve_request p).
Proof.
  unfold submit. cbn [finished]. change (setLoading true _) with (prepare p).
  unfold try_block, never_settles. rewrite prepare_request.
  destruct (net (solve_request p)) as [|m|resp] eqn:Hnet.
  - split; [by left|done].
  - split; [done|]. by intros [?|(resp & ? & _)].
  - destruct (json resp) as [|m|data] eqn:Hjson.
    + split; [|done]. right. by exists resp.
    + split; [done|]. intros [?|(resp' & Hr & Hj)]; [done|]. congruence.
    + split.
      * by destruct (renderResult data (prepare p)) as [p' [[]|m]].
      * intros [?|(resp' & Hr & Hj)]; [done|]. congruence.
Qed.

(** X6.  The handler never touches the form: the question text, the
    selected domain and topic and the options of the topic select are, both
    while it waits and when it has run to its end, what they were at the
    submission; submitting the page it ends on sends the same request
    again. *)
Theorem submit_keeps_form (net : network) (p : page) :
  (question_value (suspended (submit net p)) = question_value p /\
   domain_value (suspended (submit net p)) = domain_value p /\
   topic_value (suspended (submit net p)) = topic_value p /\
   topic_children (suspended (submit net p)) = topic_children p) /\
  match finished (submit net p) with
  | Some q =>
      question_value q = question_value p /\
      domain_value q = domain_value p /\
      topic_value q = topic_value p /\
      topic_children q = topic_children p /\
      forall net', sent (submit net' q) = sent (submit net p)
  | None => never_settles net (solve_request p)
  end.
Proof.
  split; [done|].
  destruct (finished (submit net p)) as [q|] eqn:Hq.
  - destruct (finished_form net p q Hq) as (Hqv & Hd & Ht & Hc).
    repeat split; try done. intros net'. unfold submit. cbn [sent].
    change (setLoading true
              (set_result_content (Text EmptyString)
                 (set_result_classes (result_classes q ∪ {["hidden"]}) q)))
      with (prepare q).
    change (setLoading true
              (set_result_content (Text EmptyString)
                 (set_result_classes (result_classes p ∪ {["hidden"]}) p)))
      with (prepare p).
    rewrite !prepare_request. f_equal. by apply solve_request_frame.
  - pose proof (submit_loading_state_none net p) as Hnone. by apply Hnone.
Qed.

(** The body of the one request a submission sends. *)
Lemma submit_sends_one_post_body (net : network) (p : page) :
  body <$> sent (submit net p) =
  [ JSON_stringify
      (VObj [ ("question", VStr (question_value p));
              ("domain", if bool_decide (domain_value p = EmptyString)
                         then VNull else VStr (domain_value p));
              ("topic", if bool_decide (topic_value p = EmptyString)
                        then VNull else VStr (topic_value p)) ]) 0 ].
Proof.
  unfold submit, solve_request, payload, or_else.
  cbn [sent fmap list_fmap body question_value domain_value topic_value setLoading
       set_loader set_result_content set_result_classes ToBoolean].
  by destruct (bool_decide (domain_value p = EmptyString)),
              (bool_decide (topic_value p = EmptyString)).
Qed.

(** X16.  The handler has no timeout: it fails to run to its end exactly
    when the promise of [fetch], or that of [response.json()], never
    settles, and the page then stays as the handler prepared it, loader
    shown and button disabled. *)
Theorem submit_without_answer (net : network) (p : page) :
  (finished (submit net p) = None <-> never_settles net (solve_request p)) /\
  suspended (submit net p) = prepare p /\
  shown (loader_classes (prepare p)) /\
  button_disabled (prepare p) = true.
Proof.
  split; [apply submit_loading_state_none|]. split; [done|].
  apply setLoading_true_shown.
Qed.

(** X17.  The promise of the handler never rejects: whenever the handler
    runs to its end it ends normally, every error of the [try] block having
    been caught and rendered. *)
Theorem submit_never_rejects (net : network) (p : page) :
  submit_completion net p = (fun _ => Normal tt) <$> finished (submit net p).
Proof.
  unfold submit_completion, submit. cbn [finished].
  change (setLoading true
            (set_result_content (Text EmptyString)
               (set_result_classes (result_classes p ∪ {["hidden"]}) p)))
    with (prepare p).
  destruct (try_block net (prepare p)) as [[p' [[]|m]]|]; [done| |done].
  by rewrite catch_block_shows.
Qed.

(** *** [setLoading] *)

Lemma classList_toggle_twice (cls : gset string) (token : string) (a b : bool) :
  classList_toggle (classList_toggle cls token a) token b
  = classList_toggle cls token b.
Proof.
  unfold classList_toggle.
  destruct a, b; apply set_eq; intros x;
    rewrite ?elem_of_union, ?elem_of_difference, ?elem_of_union,
      ?elem_of_singleton;
    destruct (decide (x = token)); tauto.
Qed.

(** X7.  Of two calls of [setLoading] the last one wins: the page is as if
    only the second call had been made (so a repeated call changes
    nothing). *)
Theorem setLoading_last_wins (a b : bool) (p : page) :
  setLoading b (setLoading a p) = setLoading b p.
Proof.
  unfold setLoading, set_loader.
  cbn [loader_classes question_value domain_value topic_value topic_children
       button_disabled result_classes result_content].
  by rewrite classList_toggle_twice.
Qed.

(** X8.  [setLoading] changes the class [hidden] of the loader and the
    [disabled] flag of the button, nothing else: the other classes of the
    loader, the form and the result element are as before. *)
Theorem setLoading_frame (isLoading : bool) (p : page) :
  loader_classes (setLoading isLoading p) ∖ {["hidden"]}
    = loader_classes p ∖ {["hidden"]} /\
  ("hidden" ∈ loader_classes (setLoading isLoading p) <-> isLoading = false) /\
  button_disabled (setLoading isLoading p) = isLoading /\
  question_value (setLoading isLoading p) = question_value p /\
  domain_value (setLoading isLoading p) = domain_value p /\
  topic_value (setLoading isLoading p) = topic_value p /\
  topic_children (setLoading isLoading p) = topic_children p /\
  result_classes (setLoading isLoading p) = result_classes p /\
  result_content (setLoading isLoading p) = result_content p.
Proof.
  split; [|split; [|done]].
  - unfold setLoading, classList_toggle. cbn [loader_classes set_loader].
    destruct isLoading; cbn [negb]; apply set_eq; intros x;
      rewrite ?elem_of_difference, ?elem_of_union, ?elem_of_difference,
        ?elem_of_singleton; tauto.
  - unfold setLoading, classList_toggle. cbn [loader_classes set_loader].
    destruct isLoading; cbn [negb];
      rewrite ?elem_of_difference, ?elem_of_union, ?elem_of_singleton;
      split; try done; try tauto.
Qed.

(** *** The topic select *)
Section Topics.
Variable window_TOPIC_OPTIONS : option (gmap string (list string)).

(** X9.  [updateTopicOptions] rebuilds the topic select from the domain
    alone: whatever options and selection the select held before, the
    outcome is the same, so a second call in a row changes nothing. *)
Theorem updateTopicOptions_rebuilds (p : page) :
  (forall sel v,
     updateTopicOptions window_TOPIC_OPTIONS (set_topic sel v p)
     = updateTopicOptions window_TOPIC_OPTIONS p) /\
  updateTopicOptions window_TOPIC_OPTIONS
    (fst (updateTopicOptions window_TOPIC_OPTIONS p))
  = updateTopicOptions window_TOPIC_OPTIONS p.
Proof.
  assert (forall q sel v,
            updateTopicOptions window_TOPIC_OPTIONS (set_topic sel v q)
            = updateTopicOptions window_TOPIC_OPTIONS q) as Hany by done.
  split; [apply Hany|].
  unfold updateTopicOptions at 2.
  destruct (if bool_decide (domain_value p = EmptyString) then Some []
            else match topicOptions_get window_TOPIC_OPTIONS (domain_value p) with
                 | Own topics => Some topics
                 | Inherited => None
                 | Absent => Some []
                 end) as [topics|]; cbn [fst]; by rewrite !Hany.
Qed.

(** X10.  [updateTopicOptions] throws exactly when the domain has no entry
    of its own in the mapping and is the name of a member of
    [Object.prototype] (what the mapping then yields has no [forEach]); the
    topic select is then left with the default option alone. *)
Theorem updateTopicOptions_throws (p : page) :
  (is_normal (snd (updateTopicOptions window_TOPIC_OPTIONS p)) = false <->
   default ∅ window_TOPIC_OPTIONS !! domain_value p = None /\
   domain_value p ∈ Object_prototype_keys) /\
  match snd (updateTopicOptions window_TOPIC_OPTIONS p) with
  | Normal _ => True
  | Throw _ =>
      topic_children (fst (updateTopicOptions window_TOPIC_OPTIONS p))
      = [ default_option ]
  end.
Proof.
  unfold updateTopicOptions, topicOptions_get, topicOptions.
  destruct (bool_decide (domain_value p = EmptyString)) eqn:Hempty.
  - apply bool_decide_eq_true in Hempty. rewrite Hempty. cbn [snd is_normal].
    split; [|done]. split; [done|]. intros [_ Hin].
    apply list_elem_of_In in Hin. cbn in Hin.
    repeat (destruct Hin as [Hin|Hin]; [discriminate Hin|]). done.
  - destruct (default ∅ window_TOPIC_OPTIONS !! domain_value p) as [topics|].
    + cbn [snd is_normal]. split; [|done]. split; [done|]. by intros [? _].
    + destruct (bool_decide (domain_value p ∈ Object_prototype_keys)) eqn:Hin.
      * apply bool_decide_eq_true in Hin. cbn [snd is_normal fst]. done.
      * apply bool_decide_eq_false in Hin. cbn [snd is_normal].
        split; [|done]. split; [done|]. by intros [_ ?].
Qed.

(** X11.  After the domain select has changed to [domain], the topic
    select shows its default option, so a submission sends [topic: null]
    together with the new domain, whatever topic was selected before. *)
Theorem domain_change_resets_topic (domain : string) (p : page) (net : network) :
  body <$> sent (submit net (fst (domain_changed window_TOPIC_OPTIONS domain p))) =
  [ JSON_stringify
      (VObj [ ("question", VStr (question_value p));
              ("domain", if bool_decide (domain = EmptyString)
                         then VNull else VStr domain);
              ("topic", VNull) ]) 0 ].
Proof.
  rewrite submit_sends_one_post_body.
  unfold domain_changed, updateTopicOptions.
  destruct (if bool_decide (domain_value (select_domain domain p) = EmptyString)
            then Some []
            else match topicOptions_get window_TOPIC_OPTIONS
                         (domain_value (select_domain domain p)) with
                 | Own topics => Some topics
                 | Inherited => None
                 | Absent => Some []
                 end) as [topics|]; cbn [fst];
    cbn [set_topic select_domain question_value domain_value topic_value];
    rewrite (bool_decide_eq_true_2 (EmptyString = EmptyString)) by done; done.
Qed.

End Topics.

(** *** Responses outside the boundary format *)

(** X1.  For data whose [status] is neither ["success"] nor ["refused"]
    (an error response, an unknown or missing status, data that is not an
    object) both revisions of [renderResult] show the result element with
    plain text: [data.message] when that is truthy, and 系統發生未知錯誤 when
    it is missing or otherwise falsy. *)
Theorem renderResult_unknown_status data status message p :
  field data "status" status ->
  strict_eq_str status "success" = false ->
  strict_eq_str status "refused" = false ->
  field data "message" message ->
  shadows_toString message = false ->
  exists text,
    renderResult data p = (showing (Text text) p, Normal tt) /\
    renderResult_text data p = (showing (Text text) p, Normal tt) /\
    ToString (if ToBoolean message then message else VStr "系統發生未知錯誤")
      = Normal text /\
    (forall m, message = VStr m -> m <> EmptyString -> text = m).
Proof.
  unfold field. intros Hst Hs Hr Hm Hprints.
  pose proof (ToString_normal (or_else message (VStr unknown_error))) as Hnormal.
  rewrite shadows_or_else, Hprints in Hnormal.
  destruct (ToString (or_else message (VStr unknown_error))) as [text|] eqn:Htext;
    [|discriminate Hnormal].
  exists text.
  assert (rendered data = Normal (Text text)) as Hnew.
  { unfold rendered. rewrite Hst. cbn [cbind]. rewrite Hs, Hr, Hm. cbn [cbind].
    by rewrite Htext. }
  assert (rendered_text data = Normal (Text text)) as Hold.
  { unfold rendered_text. rewrite Hst. cbn [cbind]. rewrite Hs, Hr, Hm. cbn [cbind].
    by rewrite Htext. }
  split; [by apply renderResult_rendered|].
  split; [by apply renderResult_text_rendered|]. split; [exact Htext|].
  intros m -> Hne. unfold or_else in Htext. cbn [ToBoolean] in Htext.
  rewrite bool_decide_eq_false_2 in Htext by done. cbn in Htext. congruence.
Qed.

Ltac binds :=
  repeat match goal with
         | |- context [cbind ?c _] => destruct c; cbn [cbind]
         end.

(** X2.  [renderResult] of [src/static/app.js] assigns markup exactly for
    the statuses ["success"] and ["refused"] and plain text for everything
    else; the earlier revision never assigns markup. *)
Theorem renderResult_markup_or_text data :
  match rendered data with
  | Normal c =>
      is_markup c = strict_eq_str (get_or_undefined data "status") "success"
                    || strict_eq_str (get_or_undefined data "status") "refused"
  | Throw _ => True
  end /\
  match rendered_text data with
  | Normal c => is_markup c = false
  | Throw _ => True
  end.
Proof.
  unfold rendered, rendered_text, get_or_undefined.
  destruct (Get data "status") as [status|]; cbn [cbind]; [|done].
  destruct (strict_eq_str status "success"); [split; binds; done|].
  destruct (strict_eq_str status "refused"); split; binds; done.
Qed.

Lemma call_map_not_array (steps : value) :
  (forall elems, steps <> VArr elems) ->
  exists m, forall B (f : nat -> value -> completion B), call_map steps f = Throw m.
Proof.
  intros Hnot. destruct steps; try (by eexists); by destruct (Hnot elems).
Qed.

(** X13.  For a success response whose [steps] is missing or is not an
    array, both revisions of [renderResult] throw the same error after
    having made the result element visible, and leave its content as it
    was. *)
Theorem renderResult_steps_not_array data steps p :
  field data "status" (VStr "success") ->
  field data "steps" steps ->
  (forall elems, steps <> VArr elems) ->
  exists m,
    renderResult data p
      = (set_result_classes (result_classes p ∖ {["hidden"]}) p, Throw m) /\
    renderResult_text data p
      = (set_result_classes (result_classes p ∖ {["hidden"]}) p, Throw m).
Proof.
  unfold field. intros Hst Hs Hnot.
  destruct (call_map_not_array steps Hnot) as [m Hm]. exists m.
  unfold renderResult, renderResult_text, rendered, rendered_text.
  rewrite Hst. cbn [cbind strict_eq_str]. rewrite bool_decide_eq_true_2 by done.
  rewrite Hs. cbn [cbind]. by rewrite !Hm.
Qed.

(** *** The earlier revision and step values *)

Lemma stepText_normal idx props :
  is_normal (stepText idx (VObj props)) = step_prints_text (VObj props).
Proof.
  unfold stepText, step_prints_text, get_or_undefined. cbn [Get cbind].
  rewrite <- !ToString_normal.
  destruct (ToString (default VUndefined (own props "variable")));
    cbn [cbind is_normal andb]; [|done].
  destruct (ToString (default VUndefined (own props "formula")));
    cbn [cbind is_normal andb]; [|done].
  by destruct (default VUndefined (own props "value")).
Qed.

(** X12.  For a success response whose steps are objects, [renderResult]
    of the earlier revision completes exactly when every step's value is a
    number (it calls [toFixed] on the value as it comes) and nothing else
    it prints is, or holds inside arrays, an object with an own property
    [toString]. *)
Theorem renderResult_text_completes data steps p :
  field data "status" (VStr "success") ->
  field data "steps" (VArr steps) ->
  Forall (fun step => is_object step = true) steps ->
  is_normal (snd (renderResult_text data p)) =
  forallb step_prints_text steps && frame_prints data.
Proof.
  unfold field. intros Hst Hs Hobj.
  transitivity (is_normal (rendered_text data)).
  { unfold renderResult_text, assign_result. by destruct (rendered_text data). }
  destruct data as [| | | | | |props]; try discriminate Hst.
  unfold rendered_text. rewrite Hst. cbn [cbind strict_eq_str].
  rewrite bool_decide_eq_true_2 by done. rewrite Hs. cbn [cbind call_map].
  assert (is_normal (cmap id (imap stepText steps)) = forallb step_prints_text steps)
    as Hmap.
  { apply is_normal_cmap_imap. intros i step Hin.
    rewrite Forall_forall in Hobj. specialize (Hobj step Hin).
    destruct step; try discriminate Hobj. apply stepText_normal. }
  rewrite <- Hmap.
  destruct (cmap id (imap stepText steps)) as [lines|m];
    cbn [cbind is_normal andb]; [|done].
  unfold frame_prints, get_or_undefined. cbn [Get cbind].
  rewrite <- !ToString_normal.
  destruct (ToString (default VUndefined (own props "card_id")));
    cbn [cbind is_normal andb]; [|done].
  destruct (ToString (default VUndefined (own props "selection_reason")));
    cbn [cbind is_normal andb]; [|done].
  destruct (ToString (default VUndefined (own props "output_var")));
    cbn [cbind is_normal andb]; [|done].
  by destruct (ToString (default VUndefined (own props "output_value"))).
Qed.

(** *** Refusals and the list of missing names *)



Lemma Array_join_normal (elems : list value) (sep : string) :
  is_normal (Array_join elems sep) = negb (shadows_toString (VArr elems)).
Proof.
  rewrite <- ToString_normal, ToString_array. unfold Array_join.
  by destruct (cmap join_part elems).
Qed.

(** X15.  The paragraph of missing names in [src/static/app.js] is produced
    for a non-empty array only, and lists its [join(", ")]; a value without
    a truthy [length] gives no paragraph; a value with a truthy [length]
    that is not an array (a non-empty string, an object with such a
    property) or is an array that does not print makes the render throw. *)
Theorem missing_markup_cases (v : value) :
  match missing_markup v with
  | Normal s =>
      (optional_length_truthy v = false /\ s = EmptyString) \/
      (exists elems names,
         v = VArr elems /\ elems <> [] /\
         Array_join elems ", " = Normal names /\
         s = "<p>缺少欄位：" +:+ names +:+ "</p>")
  | Throw _ =>
      optional_length_truthy v = true /\
      ((forall elems, v <> VArr elems) \/ shadows_toString v = true)
  end.
Proof.
  unfold missing_markup.
  destruct (optional_length_truthy v) eqn:Hlen; [|by left].
  destruct v as [| |b|n|s|elems|props]; try discriminate Hlen.
  - cbn [call_join cbind]. split; [done|]. by left.
  - cbn [call_join].
    pose proof (Array_join_normal elems ", ") as Hjoin.
    destruct (Array_join elems ", ") as [names|m] eqn:Hnames;
      cbn [cbind is_normal] in *.
    + right. exists elems, names. split; [done|].
      split; [intros ->; discriminate Hlen|]. by split.
    + split; [done|]. right. by destruct (shadows_toString (VArr elems)).
  - cbn [call_join cbind]. split; [done|]. by left.
Qed.

(** *** The two handlers *)

Lemma catch_block_text_shows message p :
  catch_block_text message p = (showing (Text (error_text message)) p, Normal tt).
Proof.
  unfold catch_block_text. apply renderResult_text_rendered.
  set (obj := VObj [ ("status", VStr "error"); ("message", VStr message) ]).
  assert (Get obj "status" = Normal (VStr "error")) as Hst by reflexivity.
  assert (Get obj "message" = Normal (VStr message)) as Hm by reflexivity.
  unfold rendered_text. rewrite Hst, Hm. cbn [cbind strict_eq_str].
  rewrite !bool_decide_eq_false_2 by done.
  unfold or_else, error_text. cbn [ToBoolean].
  by destruct (bool_decide (message = EmptyString)).
Qed.

Lemma difference_twice (cls : gset string) (token : string) :
  cls ∖ {[token]} ∖ {[token]} = cls ∖ {[token]}.
Proof.
  apply set_eq. intros x. rewrite !elem_of_difference. tauto.
Qed.

(** X18.  The submit handlers of the two revisions behave alike around the
    render: they send the same request, wait on the same page, run to
    their end in the same cases, and end on pages that differ at most in
    what the result element shows (form, loader, button and the classes of
    the result element are the same). *)
Theorem submit_revisions_agree (net : network) (p : page) :
  sent (submit_text net p) = sent (submit net p) /\
  suspended (submit_text net p) = suspended (submit net p) /\
  match finished (submit net p), finished (submit_text net p) with
  | Some q, Some q' => same_but_content q q'
  | None, None => never_settles net (solve_request p)
  | _, _ => False
  end.
Proof.
  split; [done|]. split; [done|].
  unfold submit, submit_text. cbn [finished].
  change (setLoading true
            (set_result_content (Text EmptyString)
               (set_result_classes (result_classes p ∪ {["hidden"]}) p)))
    with (prepare p).
  unfold try_block, try_block_text, never_settles. rewrite prepare_request.
  destruct (net (solve_request p)) as [|m|resp] eqn:Hnet.
  - by left.
  - rewrite catch_block_shows, catch_block_text_shows.
    by repeat split.
  - destruct (json resp) as [|m|data] eqn:Hjson.
    + right. by exists resp.
    + rewrite catch_block_shows, catch_block_text_shows.
      by repeat split.
    + unfold renderResult, renderResult_text.
      destruct (rendered data) as [c|m], (rendered_text data) as [c'|m'];
        cbn [assign_result fst];
        rewrite ?catch_block_shows, ?catch_block_text_shows; cbn [fst];
        unfold same_but_content; cbn; rewrite ?difference_twice; done.
Qed.

End Facts.
End PageExtFacts.

(* ===================================================================== *)
(** * Facts about the solve pipeline *)
(* ===================================================================== *)
Module CoreFacts.
Import Core.

Section Facts.
Context {ARITH : Arithmetic} {CONF : Configuration}.

(** A final state has no successor. *)
Lemma final_nf (result : SolveResult) : nf transition (Final result).
Proof. intros [s Hs]. inversion Hs. Qed.

(** From every state there is at most one transition. *)
Lemma transition_deterministic : deterministic transition.
Proof.
  intros s s1 s2 H1 H2.
  destruct H1; inversion H2; subst; try congruence.
Qed.

(** Two runs from one state that both end end in the same result. *)
Lemma runs_agree (s : state) (r1 r2 : SolveResult) :
  rtc transition s (Final r1) -> rtc transition s (Final r2) -> r1 = r2.
Proof.
  intros Hrun1 Hrun2.
  assert (Final r1 = Final r2) as Heq; [|congruence].
  eapply (confluent_rtc_nf (R:=transition));
    eauto using deterministic_confluent, transition_deterministic, final_nf.
Qed.




Lemma elem_of_missing_inputs (card : FormulaCard) (b : gmap string binding) name :
  name ∈ missing_inputs card b <-> name ∈ required_inputs card /\ b !! name = None.
Proof. unfold missing_inputs. rewrite list_elem_of_filter. tauto. Qed.

(** C2.  When the selected card has a required input without a binding, the
    pipeline ends in [Refused] and in nothing else; the missing_inputs of
    the refusal hold a name exactly when it is a required input of the card
    with no binding. *)
Theorem missing_input_refused (plan : TaskPlan) (sel : Selection)
    (b : gmap string binding) (name : string) :
  select plan = Some sel ->
  name ∈ required_inputs (selected sel) ->
  b !! name = None ->
  exists missing,
    solves plan b (Refused "missing required input" (Some missing)) /\
    (forall result, solves plan b result ->
       result = Refused "missing required input" (Some missing)) /\
    (forall x, x ∈ missing <-> x ∈ required_inputs (selected sel) /\ b !! x = None).
Proof.
  intros Hsel Hreq Hunbound.
  exists (missing_inputs (selected sel) b).
  assert (solves plan b
            (Refused "missing required input"
                     (Some (missing_inputs (selected sel) b)))) as Hrun.
  { unfold solves. eapply rtc_l; [by apply card_selected|].
    apply rtc_once, missing_input. intros Hnil.
    assert (name ∈ missing_inputs (selected sel) b) as Hin
      by by apply elem_of_missing_inputs.
    rewrite Hnil in Hin. by apply elem_of_nil in Hin. }
  split; [exact Hrun|]. split.
  - intros result Hresult. apply (runs_agree _ _ _ Hresult Hrun).
  - intros x. apply elem_of_missing_inputs.
Qed.

End Facts.
End CoreFacts.

(* ===================================================================== *)
(** * Closed examples: the page script *)
(* ===================================================================== *)
Module PageExamples.
Import Js Page JsFacts PageFacts Fragment.













(** The theorem of C9 at the Sharpe response: it renders. *)
Lemma renderResult_completes_witness :
  field sharpe_success "status" (VStr "success") /\
  Forall (fun step => is_object step = true)
    [ step_object "excess_return" "mean - rf" (VNum (Some 6%Z));
      step_object "sharpe" "excess_return / std" (VNum (Some 3%Z)) ] /\
  is_normal (snd (renderResult sharpe_success sample_page)) = true.
Proof.
  split; [reflexivity|].
  assert (Forall (fun step => is_object step = true)
            [ step_object "excess_return" "mean - rf" (VNum (Some 6%Z));
              step_object "sharpe" "excess_return / std" (VNum (Some 3%Z)) ])
    as Hobjects by (repeat constructor).
  split; [exact Hobjects|].
  exact (eq_trans
           (renderResult_completes sharpe_success _ sample_page eq_refl eq_refl Hobjects)
           eq_refl).
Defined.

(** C9, counterexample.  A success response whose steps are objects, one of
    them with a value that has an own property [toString]: [Number(...)]
    throws on it, and so does [renderResult]. *)
Lemma renderResult_throws_on_shadowed_toString :
  field shadowed_value_success "status" (VStr "success") /\
  field shadowed_value_success "steps"
    (VArr [ step_object "sharpe" "excess_return / std"
              (VObj [ ("toString", VNum (Some 1%Z)) ]) ]) /\
  is_object (step_object "sharpe" "excess_return / std"
               (VObj [ ("toString", VNum (Some 1%Z)) ])) = true /\
  ToNumber (VObj [ ("toString", VNum (Some 1%Z)) ]) = Throw msg_not_primitive /\
  snd (renderResult shadowed_value_success sample_page) = Throw msg_not_primitive.
Proof. repeat split; vm_compute; reflexivity. Qed.

(** A run of [updateTopicOptions] on a mapping with one domain. *)
Example updateTopicOptions_portfolio :
  let mapping : option (gmap string (list string)) :=
    Some {[ "portfolio" := [ "sharpe"; "sortino" ] ]} in
  topic_children (fst (updateTopicOptions mapping sample_page))
    = [ default_option; topic_option "sharpe"; topic_option "sortino" ] /\
  updateTopicOptions mapping
      (set_topic [ topic_option "stale" ] "stale" sample_page)
    = updateTopicOptions mapping sample_page.
Proof. split; vm_compute; reflexivity. Qed.

(** A submission answered by a refusal: the request that went out, and the
    page at the end. *)
Example submit_refused :
  let net : network :=
    fun _ => Fulfilled {| json := Fulfilled refused_missing_std |} in
  body <$> sent (submit net sample_page)
    = [ "{" +:+ dq +:+ "question" +:+ dq +:+ ":" +:+ dq
          +:+ "What is the Sharpe ratio of the fund?" +:+ dq +:+ ","
          +:+ dq +:+ "domain" +:+ dq +:+ ":" +:+ dq +:+ "portfolio" +:+ dq +:+ ","
          +:+ dq +:+ "topic" +:+ dq +:+ ":null}" ] /\
  (result_content <$> finished (submit net sample_page))
    = Some (Markup (refused_markup "missing required input" "<p>缺少欄位：std</p>")) /\
  (button_disabled <$> finished (submit net sample_page)) = Some false.
Proof. repeat split; vm_compute; reflexivity. Qed.

(** A submission whose fetch rejects: the error text is shown. *)
Example submit_network_error :
  let net : network := fun _ => Rejected "Failed to fetch" in
  (result_content <$> finished (submit net sample_page))
    = Some (Text "Failed to fetch") /\
  (result_content <$> finished (submit (fun _ => Rejected EmptyString) sample_page))
    = Some (Text "系統發生未知錯誤").
Proof. split; vm_compute; reflexivity. Qed.

End PageExamples.

(* ===================================================================== *)
(** * Closed examples: the pipeline *)
(* ===================================================================== *)
Module CoreExamples.
Import Core CoreFacts Sharpe.

(** The Sharpe scenario: [excess_return = 0.06], then [sharpe = 0.5]. *)
Example sharpe_scenario :
  solve sharpe_plan full_bindings =
  Success "sharpe" "rule match on domain and topic"
    [ ("mean", user_supplied (8 # 100)); ("std", user_supplied (12 # 100));
      ("rf", user_supplied (2 # 100)) ]
    [ {| step_index := 1; step_variable := "excess_return";
         step_formula := "mean - rf"; step_value := 3 # 50 |};
      {| step_index := 2; step_variable := "sharpe";
         step_formula := "excess_return / std"; step_value := 1 # 2 |} ]
    "sharpe" (1 # 2) false.
Proof. vm_compute. reflexivity. Qed.

(** The theorem of C2 at the Sharpe card with [std] unbound. *)
Lemma missing_input_refused_witness :
  select sharpe_plan = Some sharpe_selection /\
  "std" ∈ required_inputs sharpe_card /\
  bindings_without_std !! "std" = None /\
  exists missing,
    solves sharpe_plan bindings_without_std
      (Refused "missing required input" (Some missing)) /\
    ("std" ∈ missing) /\ ("mean" ∉ missing).
Proof.
  assert (select sharpe_plan = Some sharpe_selection) as Hsel by reflexivity.
  split; [exact Hsel|].
  assert ("std" ∈ required_inputs sharpe_card) as Hreq
    by (apply list_elem_of_In; vm_compute; tauto).
  split; [exact Hreq|].
  assert (bindings_without_std !! "std" = None) as Hunbound
    by (vm_compute; reflexivity).
  split; [exact Hunbound|].
  destruct (missing_input_refused sharpe_plan sharpe_selection
              bindings_without_std "std" Hsel Hreq Hunbound) as (missing & Hrun & _ & Hexact).
  exists missing. split; [exact Hrun|]. split.
  - apply Hexact. split; [exact Hreq|exact Hunbound].
  - intros Hin. apply Hexact in Hin as [_ Hmean]. vm_compute in Hmean. discriminate.
Defined.

End CoreExamples.

(* ===================================================================== *)
(** * Closed examples: further facts about the page script *)
(* ===================================================================== *)
Module PageExtExamples.
Import Js Page PageExt JsFacts PageFacts PageExtFacts Fragment Samples.

(** The theorem of X1 at the body of an HTTP error: no status, no message. *)
Lemma renderResult_unknown_status_witness :
  field not_found_body "status" VUndefined /\
  strict_eq_str VUndefined "success" = false /\
  strict_eq_str VUndefined "refused" = false /\
  field not_found_body "message" VUndefined /\
  shadows_toString VUndefined = false /\
  renderResult not_found_body sample_page
    = (showing (Text "系統發生未知錯誤") sample_page, Normal tt).
Proof.
  split; [reflexivity|]. split; [reflexivity|]. split; [reflexivity|].
  split; [reflexivity|]. split; [reflexivity|].
  destruct (renderResult_unknown_status not_found_body VUndefined VUndefined
              sample_page eq_refl eq_refl eq_refl eq_refl eq_refl)
    as (text & Hnew & _ & Htext & _).
  injection Htext as <-. exact Hnew.
Defined.

(** The theorem of X3 at a network that refuses the connection. *)
Lemma submit_rejection_shows_message_witness :
  (refuses_connection (solve_request sample_page) = Rejected "Failed to fetch" \/
   exists resp,
     refuses_connection (solve_request sample_page) = Fulfilled resp /\
     json resp = Rejected "Failed to fetch") /\
  exists q,
    finished (submit refuses_connection sample_page) = Some q /\
    shown (result_classes q) /\
    result_content q = Text "Failed to fetch".
Proof.
  split; [left; reflexivity|].
  exact (submit_rejection_shows_message refuses_connection
           sample_page "Failed to fetch" (or_introl eq_refl)).
Defined.

(** The theorem of X4 at a response whose body is the JSON text [null]:
    reading [data.status] throws, and the page shows that error. *)
Lemma submit_fulfilled_shows_witness :
  answers VNull (solve_request sample_page) = Fulfilled {| json := Fulfilled VNull |} /\
  json {| json := Fulfilled VNull |} = Fulfilled VNull /\
  exists q,
    finished (submit (answers VNull) sample_page) = Some q /\
    shown (result_classes q) /\
    result_content q = Text (msg_read_nullish "status").
Proof.
  split; [reflexivity|]. split; [reflexivity|].
  exact (submit_fulfilled_shows (answers VNull) sample_page
           {| json := Fulfilled VNull |} VNull eq_refl eq_refl).
Defined.

(** The theorem of X12 at a step whose value is the string ["3"]: the
    earlier revision throws. *)
Lemma renderResult_text_completes_witness :
  field string_value_success "status" (VStr "success") /\
  field string_value_success "steps"
    (VArr [ step_object "sharpe" "excess_return / std" (VStr "3") ]) /\
  Forall (fun step => is_object step = true)
    [ step_object "sharpe" "excess_return / std" (VStr "3") ] /\
  is_normal (snd (renderResult_text string_value_success sample_page)) = false.
Proof.
  split; [reflexivity|]. split; [reflexivity|].
  assert (Forall (fun step => is_object step = true)
            [ step_object "sharpe" "excess_return / std" (VStr "3") ])
    as Hobjects by (repeat constructor).
  split; [exact Hobjects|].
  exact (eq_trans
           (renderResult_text_completes string_value_success _ sample_page
              eq_refl eq_refl Hobjects)
           eq_refl).
Defined.

(** The theorem of X13 at a success response without [steps]. *)
Lemma renderResult_steps_not_array_witness :
  field success_without_steps "status" (VStr "success") /\
  field success_without_steps "steps" VUndefined /\
  (forall elems, VUndefined <> VArr elems) /\
  exists m,
    renderResult success_without_steps sample_page
      = (set_result_classes (result_classes sample_page ∖ {["hidden"]}) sample_page,
         Throw m) /\
    renderResult_text success_without_steps sample_page
      = (set_result_classes (result_classes sample_page ∖ {["hidden"]}) sample_page,
         Throw m).
Proof.
  split; [reflexivity|]. split; [reflexivity|].
  assert (forall elems, VUndefined <> VArr elems) as Hnot by (intros elems; discriminate).
  split; [exact Hnot|].
  exact (renderResult_steps_not_array success_without_steps VUndefined sample_page
           eq_refl eq_refl Hnot).
Defined.


(** A numeric string as step value: [src/static/app.js] renders it. *)
Example string_value_renders :
  stepItem 0 (step_object "sharpe" "excess_return / std" (VStr "3"))
  = Normal "<li><code>1. sharpe = excess_return / std = 3.0000</code></li>".
Proof. vm_compute. reflexivity. Qed.

End PageExtExamples.
